(** * MCP server template: configuration validation, transport selection,
      tool registry and the example servers.

    Shallow embedding of [base-mcp-server.ts] ([BaseMCPConfigSchema],
    [BaseMCPServer]), of [GreetingsMCP] (greetings.mcp.server.ts, the class
    that extends [BaseMCPServer]) and of the [CalculatorMCP] example.

    Outside the model: the [WeatherMCP] example, the earlier stand-alone
    [GreetingsMCP] that extends [McpServer] directly, the reading of
    resources (PDF extraction), the HTTP application, logging and metrics.
    The protocol SDK ([McpServer]) and zod are libraries: zod's schemas are
    embedded as the parsers they denote, and the operations of [McpServer]
    that the server relies on (registering a tool or a resource, connecting,
    dispatching a tool call) are modelled from the specification.

    Conventions.
    - A JavaScript [number] is an IEEE 754 binary64 value: Rocq's primitive
      [float].  [<], [<=] and [===] on numbers are [PrimFloat.ltb],
      [PrimFloat.leb] and [PrimFloat.eqb].
    - A JavaScript string is a [string], one [ascii] per UTF-16 code unit
      (code units below 256), so that [.length] is [String.length].
    - [undefined] is a value of its own ([JSUndefined]); a property that is
      absent from an object reads as [undefined].
    - A method that may [throw] returns an [Outcome]; a method that also
      mutates [this] is a function [BaseMCPServer -> Outcome A * BaseMCPServer]
      and keeps the mutations made before the [throw].
    - An [async] handler is awaited by its caller: it is the function from
      its arguments to the value its promise resolves to. *)

From Stdlib Require Import ZArith Lia Ascii String.
From Stdlib Require Import Floats.PrimFloat Floats.SpecFloat Floats.FloatOps.
From Stdlib Require Import Floats.FloatAxioms.
From stdpp Require Import base option list strings gmap pretty.

Local Open Scope string_scope.

(** ** JavaScript values *)

(** [sessionIdGenerator]: a function producing session identifiers; the
    argument counts the calls made so far. *)
Definition SessionIdGenerator : Type := nat -> string.

(** SDK transport objects.  [http_ref] / [stdio_ref] is the identity of the
    object (its allocation number); the options given to [new] are kept. *)
Record StreamableHTTPServerTransport : Type := {
  http_ref : nat;
  sessionIdGenerator : option SessionIdGenerator
}.

Record StdioServerTransport : Type := {
  stdio_ref : nat
}.

Inductive JSValue : Type :=
| JSUndefined
| JSNull
| JSBoolean (b : bool)
| JSNumber (n : float)
| JSString (s : string)
| JSHttpTransport (t : StreamableHTTPServerTransport)
| JSStdioTransport (t : StdioServerTransport)
| JSObjectOther.

(** A plain object, read by property name: the first binding of a key is
    the value of the property. *)
Definition JSObject : Type := list (string * JSValue).

Fixpoint prop (o : JSObject) (key : string) : JSValue :=
  match o with
  | [] => JSUndefined
  | (k, v) :: rest => if String.eqb k key then v else prop rest key
  end.

(** [Number.isInteger]: a finite binary64 value [m * 2^e] without fractional
    part. *)
Definition Number_isInteger (n : float) : bool :=
  match Prim2SF n with
  | S754_zero _ => true
  | S754_finite _ m e =>
      (0 <=? e)%Z || (Z.pos m mod 2 ^ (- e) =? 0)%Z
  | _ => false
  end.

(** ** zod *)

Inductive ZodIssueCode : Type :=
| invalid_type
| too_small
| too_big
| invalid_enum_value
| invalid_union.

Record ZodIssue : Type := {
  code : ZodIssueCode;
  path : list string
}.

(** The result of [safeParse]: the parsed data, or the issues found. *)
Inductive SafeParse (A : Type) : Type :=
| Valid (data : A)
| Invalid (issues : list ZodIssue).
Arguments Valid {A} data.
Arguments Invalid {A} issues.

(** A zod schema inferring type [A]. *)
Definition ZodType (A : Type) : Type := JSValue -> SafeParse A.

Definition issue (c : ZodIssueCode) : ZodIssue := {| code := c; path := [] |}.

(** A check added to a schema ([.min], [.max]): run on parsed data only. *)
Definition with_check {A : Type} (t : ZodType A) (bad : A -> bool)
    (c : ZodIssueCode) : ZodType A :=
  fun v =>
    match t v with
    | Valid a => if bad a then Invalid [issue c] else Valid a
    | Invalid errs => Invalid errs
    end.

Module z.

(** [z.string()] *)
Definition string : ZodType String.string :=
  fun v => match v with
           | JSString s => Valid s
           | _ => Invalid [issue invalid_type]
           end.

(** [z.number()]: [NaN] is not a number for zod. *)
Definition number : ZodType float :=
  fun v => match v with
           | JSNumber n =>
               if PrimFloat.eqb n n then Valid n
               else Invalid [issue invalid_type]
           | _ => Invalid [issue invalid_type]
           end.

(** [.min(k)] / [.max(k)] on a string schema: [input.length < k],
    [input.length > k]. *)
Definition min (k : nat) (t : ZodType String.string) : ZodType String.string :=
  with_check t (fun s => String.length s <? k)%nat too_small.

Definition max (k : nat) (t : ZodType String.string) : ZodType String.string :=
  with_check t (fun s => k <? String.length s)%nat too_big.

(** [.min(k)] / [.max(k)] on a number schema: [input < k], [input > k]. *)
Definition nmin (k : float) (t : ZodType float) : ZodType float :=
  with_check t (fun n => PrimFloat.ltb n k) too_small.

Definition nmax (k : float) (t : ZodType float) : ZodType float :=
  with_check t (fun n => PrimFloat.ltb k n) too_big.

(** [.default(d)]: [undefined] is replaced by [d] before parsing. *)
Definition default {A : Type} (d : JSValue) (t : ZodType A) : ZodType A :=
  fun v => match v with
           | JSUndefined => t d
           | _ => t v
           end.

(** [.optional()] *)
Definition optional {A : Type} (t : ZodType A) : ZodType (option A) :=
  fun v => match v with
           | JSUndefined => Valid None
           | _ => match t v with
                  | Valid a => Valid (Some a)
                  | Invalid errs => Invalid errs
                  end
           end.

(** [z.enum([...])]: the input is one of the listed strings; each comes
    with the value of the inferred type it stands for. *)
Definition enum {A : Type} (values : list (String.string * A)) : ZodType A :=
  fun v => match v with
           | JSString s =>
               match List.find (fun kv => String.eqb (fst kv) s) values with
               | Some kv => Valid (snd kv)
               | None => Invalid [issue invalid_enum_value]
               end
           | _ => Invalid [issue invalid_type]
           end.

(** [z.union([a, b])]: the first member that accepts the input. *)
Definition union {A : Type} (a b : ZodType A) : ZodType A :=
  fun v => match a v with
           | Valid x => Valid x
           | Invalid _ =>
               match b v with
               | Valid y => Valid y
               | Invalid _ => Invalid [issue invalid_union]
               end
           end.

End z.

(** The value at key [k] of the parsed object: issues get [k] in front of
    their path. *)
Definition at_key {A : Type} (k : string) (r : SafeParse A) : SafeParse A :=
  match r with
  | Valid a => Valid a
  | Invalid errs =>
      Invalid (map (fun i => {| code := code i; path := k :: path i |}) errs)
  end.

(** [z.object] parses every key and reports the issues of all of them. *)
Definition ap {A B : Type} (f : SafeParse (A -> B)) (x : SafeParse A)
    : SafeParse B :=
  match f, x with
  | Valid g, Valid a => Valid (g a)
  | Valid _, Invalid errs => Invalid errs
  | Invalid errs, Valid _ => Invalid errs
  | Invalid errs, Invalid errs2 => Invalid (errs ++ errs2)
  end.

Notation "f <*> x" := (ap f x) (at level 61, left associativity).

(** ** Configuration schema (base-mcp-server.ts) *)

Inductive TransportMode : Type :=
| streamable_http   (* "streamable-http" *)
| stdio.            (* "stdio" *)

Definition TransportMode_string (m : TransportMode) : string :=
  match m with
  | streamable_http => "streamable-http"
  | stdio => "stdio"
  end.

(** [z.enum(["streamable-http", "stdio"])] *)
Definition z_enum_TransportMode : ZodType TransportMode :=
  z.enum [("streamable-http", streamable_http); ("stdio", stdio)].

Inductive Transport : Type :=
| HttpTransport (t : StreamableHTTPServerTransport)
| StdioTransport (t : StdioServerTransport).

(** [z.instanceof(StreamableHTTPServerTransport)] and
    [z.instanceof(StdioServerTransport)] *)
Definition z_instanceof_http : ZodType Transport :=
  fun v => match v with
           | JSHttpTransport t => Valid (HttpTransport t)
           | _ => Invalid [issue invalid_type]
           end.

Definition z_instanceof_stdio : ZodType Transport :=
  fun v => match v with
           | JSStdioTransport t => Valid (StdioTransport t)
           | _ => Invalid [issue invalid_type]
           end.

(** [BaseMCPConfig = z.infer<typeof BaseMCPConfigSchema>] *)
Record BaseMCPConfig : Type := {
  cfg_name : string;
  cfg_version : string;
  cfg_host : string;
  cfg_port : float;
  cfg_transportMode : TransportMode;
  cfg_transport : option Transport
}.

(** [BaseMCPConfigSchema.safeParse(params)] *)
Definition BaseMCPConfigSchema (params : JSObject) : SafeParse BaseMCPConfig :=
  Valid Build_BaseMCPConfig
    <*> at_key "name" (z.max 100 (z.min 2 z.string) (prop params "name"))
    <*> at_key "version" (z.max 10 (z.min 1 z.string) (prop params "version"))
    <*> at_key "host"
          (z.default (JSString "localhost") (z.max 100 (z.min 2 z.string))
             (prop params "host"))
    <*> at_key "port"
          (z.default (JSNumber 3000) (z.nmax 65535 (z.nmin 1 z.number))
             (prop params "port"))
    <*> at_key "transportMode"
          (z.default (JSString "stdio") z_enum_TransportMode
             (prop params "transportMode"))
    <*> at_key "transport"
          (z.optional (z.union z_instanceof_http z_instanceof_stdio)
             (prop params "transport")).

(** ** Results and exceptions *)

Inductive Exception : Type :=
| ZodError (issues : list ZodIssue)
    (* thrown by [schema.parse]; the specification's [ValidationError] *)
| Error (message : string)
    (* [new Error(message)]; [getTransporter] throws it *)
| DuplicateNameError (name : string)
| ToolNotFoundError (name : string)
| HandlerError (cause : Exception)
| InvalidStructuredContent (name : string) (issues : list ZodIssue).
    (* the structured payload of tool [name] fails its output schema *)

Inductive Outcome (A : Type) : Type :=
| Return (a : A)
| Throw (e : Exception).
Arguments Return {A} a.
Arguments Throw {A} e.

(** [CallToolResult] of the SDK, as the handlers build it. *)
Record TextContent : Type := {
  type : string;
  text : string
}.

Record CallToolResult : Type := {
  content : list TextContent;
  structuredContent : option JSObject
}.

(** ** Builtins of the JavaScript runtime

    [Number::toString] (used by template literals) and the functions of
    [Math] are those of the runtime; the model takes them as given. *)
Class Builtins : Type := {
  Number_toString : float -> string;
  Math_sqrt : float -> float;
  Math_pow : float -> float -> float;
  Math_log : float -> float;
  Math_sin : float -> float;
  Math_cos : float -> float;
  Math_tan : float -> float
}.

(** ** Tools and resources *)

(** The handlers of the example servers, bound to the server:
    [this.greet.bind(this)] and so on. *)
Inductive ToolCallback : Type :=
| this_greet
| this_registerCustomGreeting
| this_customGreet
| this_calculate
| this_advancedMath.

Inductive ResourceCallback : Type :=
| this_getNoticeContent.

(** The argument types of the handlers. *)
Record GreetArgs : Type := { greet_name : string }.
Record CustomGreetArgs : Type := { custom_name : string; custom_message : string }.
Record CalculateArgs : Type := { operation : string; a : float; b : float }.
Record AdvancedMathArgs : Type := {
  math_operation : string;
  value : float;
  exponent : option float
}.

(** [ToolCallback<TInput>]: the argument type of each handler. *)
Definition Args (cb : ToolCallback) : Type :=
  match cb with
  | this_greet => GreetArgs
  | this_registerCustomGreeting => unit
  | this_customGreet => CustomGreetArgs
  | this_calculate => CalculateArgs
  | this_advancedMath => AdvancedMathArgs
  end.

(** A raw shape ([ZodRawShape]) wrapped in [z.object]: parses the arguments
    object of a call. *)
Definition ZodShape (A : Type) : Type := JSObject -> SafeParse A.

(** The [config] argument of [registerTool], for a handler of input [TInput]. *)
Record ToolConfig (TInput : Type) : Type := {
  description : string;
  inputSchema : ZodShape TInput;
  outputSchema : ZodShape JSObject
}.
Arguments description {TInput} _.
Arguments inputSchema {TInput} _.
Arguments outputSchema {TInput} _.

(** An entry of the tool registry. *)
Record RegisteredTool : Type := {
  callback : ToolCallback;
  tool_config : ToolConfig (Args callback)
}.

Record ResourceConfig : Type := {
  resource_description : string;
  resource_content : option string;
  resource_metadata : option (list (string * string))
}.

Record RegisteredResource : Type := {
  uri : string;
  resource_config : ResourceConfig;
  readCallback : ResourceCallback
}.

(** ** The server object *)

Record BaseMCPServer : Type := {
  (* McpServer *)
  _registeredTools : gmap string RegisteredTool;
  _registeredResources : gmap string RegisteredResource;
  _transport : option Transport;
  (* BaseMCPServer *)
  name : string;
  version : string;
  host : string;
  port : float;
  transportMode : TransportMode;
  httpTransporter : option StreamableHTTPServerTransport;
  stdioTransporter : option StdioServerTransport
}.

Definition set_registeredTools (f : gmap string RegisteredTool -> gmap string RegisteredTool)
    (this : BaseMCPServer) : BaseMCPServer :=
  {| _registeredTools := f (_registeredTools this);
     _registeredResources := _registeredResources this;
     _transport := _transport this;
     name := name this; version := version this; host := host this;
     port := port this; transportMode := transportMode this;
     httpTransporter := httpTransporter this;
     stdioTransporter := stdioTransporter this |}.

Definition set_registeredResources
    (f : gmap string RegisteredResource -> gmap string RegisteredResource)
    (this : BaseMCPServer) : BaseMCPServer :=
  {| _registeredTools := _registeredTools this;
     _registeredResources := f (_registeredResources this);
     _transport := _transport this;
     name := name this; version := version this; host := host this;
     port := port this; transportMode := transportMode this;
     httpTransporter := httpTransporter this;
     stdioTransporter := stdioTransporter this |}.

Definition set_transport (t : option Transport) (this : BaseMCPServer)
    : BaseMCPServer :=
  {| _registeredTools := _registeredTools this;
     _registeredResources := _registeredResources this;
     _transport := t;
     name := name this; version := version this; host := host this;
     port := port this; transportMode := transportMode this;
     httpTransporter := httpTransporter this;
     stdioTransporter := stdioTransporter this |}.

Definition set_httpTransporter (t : option StreamableHTTPServerTransport)
    (this : BaseMCPServer) : BaseMCPServer :=
  {| _registeredTools := _registeredTools this;
     _registeredResources := _registeredResources this;
     _transport := _transport this;
     name := name this; version := version this; host := host this;
     port := port this; transportMode := transportMode this;
     httpTransporter := t;
     stdioTransporter := stdioTransporter this |}.

Definition set_stdioTransporter (t : option StdioServerTransport)
    (this : BaseMCPServer) : BaseMCPServer :=
  {| _registeredTools := _registeredTools this;
     _registeredResources := _registeredResources this;
     _transport := _transport this;
     name := name this; version := version this; host := host this;
     port := port this; transportMode := transportMode this;
     httpTransporter := httpTransporter this;
     stdioTransporter := t |}.

(** A method of the server: may throw, may mutate [this]. *)
Definition Method (A : Type) : Type :=
  BaseMCPServer -> Outcome A * BaseMCPServer.

Definition ret {A : Type} (x : A) : Method A := fun this => (Return x, this).

Definition throw {A : Type} (e : Exception) : Method A :=
  fun this => (Throw e, this).

Definition bind {A B : Type} (m : Method A) (k : A -> Method B) : Method B :=
  fun this =>
    match m this with
    | (Return x, this') => k x this'
    | (Throw e, this') => (Throw e, this')
    end.

Notation "m ;; k" := (bind m (fun _ => k))
  (at level 100, k at level 200, right associativity).

(** ** McpServer (SDK) *)

(** Modelled from the spec: [McpServer.registerTool] is code of the SDK, not
    of this repository.  It adds the descriptor under [name] and fails with
    [DuplicateNameError] if [name] already exists in the registry. *)
Definition registerTool (name : string) (cb : ToolCallback)
    (config : ToolConfig (Args cb)) : Method unit :=
  fun this =>
    match _registeredTools this !! name with
    | Some _ => (Throw (DuplicateNameError name), this)
    | None =>
        (Return tt,
         set_registeredTools
           (insert name {| callback := cb; tool_config := config |}) this)
    end.

(** Modelled from the spec: [McpServer.registerResource] of the SDK, with the
    same duplicate-name policy. *)
Definition registerResource (name uri : string) (config : ResourceConfig)
    (handler : ResourceCallback) : Method unit :=
  fun this =>
    match _registeredResources this !! name with
    | Some _ => (Throw (DuplicateNameError name), this)
    | None =>
        (Return tt,
         set_registeredResources
           (insert name {| uri := uri; resource_config := config;
                           readCallback := handler |}) this)
    end.

(** Modelled from the spec: [McpServer.connect] of the SDK binds the transport
    handle to the protocol engine.  The specification leaves open what a
    repeated [connect] does; the binding below is the one of the first call,
    and no statement of this file is about the outcome of a later one. *)
Definition McpServer_connect (transporter : Transport) : Method unit :=
  fun this => (Return tt, set_transport (Some transporter) this).

(** ** BaseMCPServer (base-mcp-server.ts) *)

(** [initializeTransport(customTransport)]; [fresh] is the identity that a
    transport object created by [new] receives. *)
Definition initializeTransport (fresh : nat) (customTransport : option Transport)
    : Method unit :=
  fun this =>
    match transportMode this with
    | streamable_http =>
        match customTransport with
        | Some (HttpTransport t) =>
            (Return tt, set_httpTransporter (Some t) this)
        | _ =>
            (Return tt,
             set_httpTransporter
               (Some {| http_ref := fresh; sessionIdGenerator := None |}) this)
        end
    | stdio =>
        match customTransport with
        | Some (StdioTransport t) =>
            (Return tt, set_stdioTransporter (Some t) this)
        | _ =>
            (Return tt,
             set_stdioTransporter (Some {| stdio_ref := fresh |}) this)
        end
    end.

Definition registerToolHelper (name : string) (handler : ToolCallback)
    (config : ToolConfig (Args handler)) : Method unit :=
  registerTool name handler config.

Definition registerResourceHelper (name uri : string) (config : ResourceConfig)
    (handler : ResourceCallback) : Method unit :=
  registerResource name uri config handler.

Definition getHTTPTransporter (this : BaseMCPServer)
    : option StreamableHTTPServerTransport :=
  httpTransporter this.

Definition getStdioTransporter (this : BaseMCPServer)
    : option StdioServerTransport :=
  stdioTransporter this.

Definition getTransporter (this : BaseMCPServer) : Outcome Transport :=
  match transportMode this with
  | streamable_http =>
      match httpTransporter this with
      | None => Throw (Error "HTTP transporter is not initialized")
      | Some t => Return (HttpTransport t)
      end
  | stdio =>
      match stdioTransporter this with
      | None => Throw (Error "Stdio transporter is not initialized")
      | Some t => Return (StdioTransport t)
      end
  end.

Definition connect : Method unit :=
  fun this =>
    match getTransporter this with
    | Throw e => (Throw e, this)
    | Return transporter => McpServer_connect transporter this
    end.

(** [getMetadata()] *)
Record Metadata : Type := {
  meta_name : string;
  meta_version : string;
  meta_transportMode : TransportMode;
  meta_host : string;
  meta_port : float
}.

Definition getMetadata (this : BaseMCPServer) : Metadata :=
  {| meta_name := name this;
     meta_version := version this;
     meta_transportMode := transportMode this;
     meta_host := host this;
     meta_port := port this |}.

Section Runtime.

Context {runtime : Builtins}.

(** What [start()] writes with [console.log]. *)
Definition start_log (this : BaseMCPServer) : list string :=
  match transportMode this, httpTransporter this with
  | streamable_http, Some _ =>
      ["Starting " +:+ name this +:+ " v" +:+ version this +:+ " on http://"
         +:+ host this +:+ ":" +:+ Number_toString (port this)]
  | streamable_http, None => []
  | stdio, _ =>
      ["Starting " +:+ name this +:+ " v" +:+ version this +:+ " in stdio mode"]
  end.

(** [start()]: the lines logged, then the result of [connect()]. *)
Definition start (this : BaseMCPServer)
    : list string * (Outcome unit * BaseMCPServer) :=
  (start_log this, connect this).

(** ** Schemas of the example tools *)

(** [{ text: z.string() }] *)
Definition text_outputSchema : ZodShape JSObject :=
  fun o =>
    Valid (fun t => [("text", JSString t)])
      <*> at_key "text" (z.string (prop o "text")).

Definition greet_config : ToolConfig GreetArgs :=
  {| description := "Greet the user";
     inputSchema := fun o =>
       Valid Build_GreetArgs
         <*> at_key "name" (z.max 100 (z.min 2 z.string) (prop o "name"));
     outputSchema := text_outputSchema |}.

Definition register_custom_greeting_config : ToolConfig unit :=
  {| description := "This tool will register new custom greeting message";
     inputSchema := fun _ => Valid tt;
     outputSchema := text_outputSchema |}.

Definition custom_greet_config : ToolConfig CustomGreetArgs :=
  {| description := "Greet the user with a custom message";
     inputSchema := fun o =>
       Valid Build_CustomGreetArgs
         <*> at_key "name" (z.string (prop o "name"))
         <*> at_key "message" (z.string (prop o "message"));
     outputSchema := text_outputSchema |}.

Definition calculate_config : ToolConfig CalculateArgs :=
  {| description := "Perform basic arithmetic calculations";
     inputSchema := fun o =>
       Valid Build_CalculateArgs
         <*> at_key "operation"
               (z.enum [("add", "add"); ("subtract", "subtract");
                        ("multiply", "multiply"); ("divide", "divide")]
                  (prop o "operation"))
         <*> at_key "a" (z.number (prop o "a"))
         <*> at_key "b" (z.number (prop o "b"));
     outputSchema := fun o =>
       Valid (fun r e => [("result", JSNumber r); ("expression", JSString e)])
         <*> at_key "result" (z.number (prop o "result"))
         <*> at_key "expression" (z.string (prop o "expression")) |}.

Definition advanced_math_config : ToolConfig AdvancedMathArgs :=
  {| description := "Perform advanced mathematical operations";
     inputSchema := fun o =>
       Valid Build_AdvancedMathArgs
         <*> at_key "operation" (z.string (prop o "operation"))
         <*> at_key "value" (z.number (prop o "value"))
         <*> at_key "exponent" (z.optional z.number (prop o "exponent"));
     outputSchema := fun o =>
       Valid (fun r => [("result", JSNumber r)])
         <*> at_key "result" (z.number (prop o "result")) |}.

(** ** GreetingsMCP (greetings.mcp.server.ts) *)

Definition greet (this : BaseMCPServer) (args : GreetArgs) : CallToolResult :=
  {| content :=
       [ {| type := "text";
            text := "Hello, " +:+ greet_name args +:+ "! Welcome to "
                      +:+ name this +:+ " version " +:+ version this +:+ "." |} ];
     structuredContent :=
       Some [("text",
              JSString ("Hello, " +:+ greet_name args +:+ "! Welcome to "
                          +:+ name this +:+ " version " +:+ version this +:+ "."))]
  |}.

Definition customGreet (args : CustomGreetArgs) : CallToolResult :=
  {| content :=
       [ {| type := "text";
            text := "Hello, " +:+ custom_name args +:+ "! " +:+ custom_message args |} ];
     structuredContent :=
       Some [("text",
              JSString ("Hello, " +:+ custom_name args +:+ "! "
                          +:+ custom_message args))]
  |}.

Definition registerCustomGreeting : Method CallToolResult :=
  registerToolHelper "custom_greet" this_customGreet custom_greet_config ;;
  ret {| content :=
           [ {| type := "text";
                text := "Custom greeting registered successfully!" |} ];
         structuredContent :=
           Some [("text", JSString "Custom greeting registered successfully!")]
      |}.

Definition GreetingsMCP_registerComponents : Method unit :=
  registerToolHelper "greet" this_greet greet_config ;;
  registerResourceHelper "notice.txt"
    "https://shivajichk.ac.in/pdf/1_International_Yoga_Day_Celebration_ATR.pdf"
    {| resource_description := "A sample notice file";
       resource_content :=
         Some "/Users/aman/Developer/SynergyBoat/content-gen/src/assets/pdf/notice.pdf";
       resource_metadata := None |}
    this_getNoticeContent ;;
  registerToolHelper "regiter_custom_greeting" this_registerCustomGreeting
    register_custom_greeting_config.

(** ** CalculatorMCP *)

(** The code units U+00D7 and U+00F7 of the expression templates. *)
Definition multiplication_sign : string := String "215"%char "".
Definition division_sign : string := String "247"%char "".

Definition calculate_error (message : string) : CallToolResult :=
  {| content := [ {| type := "text"; text := "Error: " +:+ message |} ];
     structuredContent := Some [("error", JSString message)] |}.

Definition calculate_ok (result : float) (expression : string) : CallToolResult :=
  {| content := [ {| type := "text"; text := expression |} ];
     structuredContent :=
       Some [("result", JSNumber result); ("expression", JSString expression)] |}.

Definition calculate (args : CalculateArgs) : CallToolResult :=
  if String.eqb (operation args) "add" then
    let result := (a args + b args)%float in
    calculate_ok result
      (Number_toString (a args) +:+ " + " +:+ Number_toString (b args)
         +:+ " = " +:+ Number_toString result)
  else if String.eqb (operation args) "subtract" then
    let result := (a args - b args)%float in
    calculate_ok result
      (Number_toString (a args) +:+ " - " +:+ Number_toString (b args)
         +:+ " = " +:+ Number_toString result)
  else if String.eqb (operation args) "multiply" then
    let result := (a args * b args)%float in
    calculate_ok result
      (Number_toString (a args) +:+ " " +:+ multiplication_sign +:+ " "
         +:+ Number_toString (b args) +:+ " = " +:+ Number_toString result)
  else if String.eqb (operation args) "divide" then
    if PrimFloat.eqb (b args) 0 then
      calculate_error "Division by zero"
    else
      let result := (a args / b args)%float in
      calculate_ok result
        (Number_toString (a args) +:+ " " +:+ division_sign +:+ " "
           +:+ Number_toString (b args) +:+ " = " +:+ Number_toString result)
  else
    calculate_error "Unknown operation".

(** [x || 2] on an optional number: [undefined], [0] and [NaN] are falsy. *)
Definition or_default (x : option float) (d : float) : float :=
  match x with
  | None => d
  | Some n => if PrimFloat.eqb n 0 || negb (PrimFloat.eqb n n) then d else n
  end.

Definition advancedMath_ok (result : float) : CallToolResult :=
  {| content := [ {| type := "text"; text := "Result: " +:+ Number_toString result |} ];
     structuredContent := Some [("result", JSNumber result)] |}.

Definition advancedMath (args : AdvancedMathArgs) : CallToolResult :=
  if String.eqb (math_operation args) "sqrt" then
    advancedMath_ok (Math_sqrt (value args))
  else if String.eqb (math_operation args) "pow" then
    advancedMath_ok (Math_pow (value args) (or_default (exponent args) 2))
  else if String.eqb (math_operation args) "log" then
    advancedMath_ok (Math_log (value args))
  else if String.eqb (math_operation args) "sin" then
    advancedMath_ok (Math_sin (value args))
  else if String.eqb (math_operation args) "cos" then
    advancedMath_ok (Math_cos (value args))
  else if String.eqb (math_operation args) "tan" then
    advancedMath_ok (Math_tan (value args))
  else
    calculate_error "Unknown operation".

Definition CalculatorMCP_registerComponents : Method unit :=
  registerToolHelper "calculate" this_calculate calculate_config ;;
  registerToolHelper "advanced_math" this_advancedMath advanced_math_config.

(** ** Construction *)

(** The concrete server classes. *)
Inductive ServerClass : Type :=
| GreetingsMCP
| CalculatorMCP.

(** The abstract [registerComponents()], dispatched on the class of [this]. *)
Definition registerComponents (cls : ServerClass) : Method unit :=
  match cls with
  | GreetingsMCP => GreetingsMCP_registerComponents
  | CalculatorMCP => CalculatorMCP_registerComponents
  end.

(** [new cls(params)]: the constructor of [BaseMCPServer], run for an object
    of class [cls].  [super(params)] leaves empty registries and no bound
    transport. *)
Definition new (cls : ServerClass) (params : JSObject) (fresh : nat)
    : Outcome BaseMCPServer :=
  match BaseMCPConfigSchema params with
  | Invalid issues => Throw (ZodError issues)
  | Valid validatedParams =>
      let this :=
        {| _registeredTools := ∅;
           _registeredResources := ∅;
           _transport := None;
           name := cfg_name validatedParams;
           version := cfg_version validatedParams;
           host := cfg_host validatedParams;
           port := cfg_port validatedParams;
           transportMode := cfg_transportMode validatedParams;
           httpTransporter := None;
           stdioTransporter := None |} in
      match (initializeTransport fresh (cfg_transport validatedParams) ;;
             registerComponents cls) this with
      | (Return _, this') => Return this'
      | (Throw e, _) => Throw e
      end
  end.

(** ** Tool invocation *)

(** The handler bound by [cb], applied to validated arguments. *)
Definition invoke (cb : ToolCallback) : Args cb -> Method CallToolResult :=
  match cb with
  | this_greet => fun args this => (Return (greet this args), this)
  | this_registerCustomGreeting => fun _ => registerCustomGreeting
  | this_customGreet => fun args => ret (customGreet args)
  | this_calculate => fun args => ret (calculate args)
  | this_advancedMath => fun args => ret (advancedMath args)
  end.

(** Modelled from the spec: the dispatch of a tool call is code of the SDK.
    A tool is a named, schema-validated callable.  [runTool] is the first
    stage of a call: the input is validated against the input schema and the
    handler runs on the validated input; an error thrown by the handler is
    surfaced as a [HandlerError] for that single invocation.  The second
    stage, the check of the handler's structured payload against the output
    schema, is [validateStructuredContent] below; [tools_call] is the whole
    call. *)
Definition runTool (tool : RegisteredTool) (args : JSObject)
    : Method CallToolResult :=
  fun this =>
    match inputSchema (tool_config tool) args with
    | Invalid issues => (Throw (ZodError issues), this)
    | Valid validated =>
        match invoke (callback tool) validated this with
        | (Return result, this') => (Return result, this')
        | (Throw e, this') => (Throw (HandlerError e), this')
        end
    end.

(** Modelled from the spec: a call names a tool of the registry.  [callTool]
    is the call up to and including the handler. *)
Definition callTool (name : string) (args : JSObject) : Method CallToolResult :=
  fun this =>
    match _registeredTools this !! name with
    | None => (Throw (ToolNotFoundError name), this)
    | Some tool => runTool tool args this
    end.

(** Modelled from the spec: the output schema of a tool is a structural
    validator of the structured payload of its results (sections 3 and 6).
    A result whose payload fails it is not surfaced to the caller: the call
    fails.  The payload is optional; a result without one is passed on. *)
Definition validateStructuredContent (name : string) (tool : RegisteredTool)
    (result : CallToolResult) : Outcome CallToolResult :=
  match structuredContent result with
  | None => Return result
  | Some structured =>
      match outputSchema (tool_config tool) structured with
      | Valid _ => Return result
      | Invalid issues => Throw (InvalidStructuredContent name issues)
      end
  end.

(** Modelled from the spec: the whole call of a tool, as a caller of the
    server sees it: lookup, input validation, handler, output validation.
    The handler has run when the output is checked, so what it did to the
    server stays. *)
Definition tools_call (name : string) (args : JSObject) : Method CallToolResult :=
  fun this =>
    match _registeredTools this !! name with
    | None => (Throw (ToolNotFoundError name), this)
    | Some tool =>
        match runTool tool args this with
        | (Return result, this') =>
            (validateStructuredContent name tool result, this')
        | (Throw e, this') => (Throw e, this')
        end
    end.

(** ** The life of a server after construction *)

Inductive Request : Type :=
| CallTool (name : string) (args : JSObject)
| Connect
| Start
| GetMetadata
| GetTransporter.

(** The server after it has served a request. *)
Definition serve (r : Request) (this : BaseMCPServer) : BaseMCPServer :=
  match r with
  | CallTool name args => snd (callTool name args this)
  | Connect => snd (connect this)
  | Start => snd (snd (start this))
  | GetMetadata => this
  | GetTransporter => this
  end.

Definition serve_all (rs : list Request) (this : BaseMCPServer) : BaseMCPServer :=
  fold_left (fun s r => serve r s) rs this.

End Runtime.

(** ** A runtime for the examples

    [Number::toString] in radix 10, computed exactly: the digits are the
    shortest decimal that reads back as the number (the closest one when
    there are several), laid out as ECMAScript lays them out (plain up to
    10^21, with leading zeros down to 10^-6, with an exponent otherwise).
    The square root is the IEEE one.  The examples call no transcendental
    function; these are left undefined ([NaN]) here. *)

Module Decimal.

Section Digits.

(** The positive number [m * 2^e]. *)
Variables (m : positive) (e : Z).

(** The number, and the two midpoints between it and its neighbours, as
    integers over the common denominator [den]. *)
Definition den : Z := if (2 <=? e)%Z then 1%Z else (2 ^ (2 - e))%Z.

Definition scaled (x : Z) : Z := if (2 <=? e)%Z then (x * 2 ^ (e - 2))%Z else x.

Definition at_value : Z := scaled (4 * Z.pos m).

Definition at_high : Z := scaled (4 * Z.pos m + 2).

Definition at_low : Z :=
  scaled (4 * Z.pos m
          - (if (Z.pos m =? 2 ^ 52)%Z && (-1074 <? e)%Z then 1 else 2)).

(** [s * 10^p] compared with [x / den]. *)
Definition compare_decimal (s p x : Z) : comparison :=
  if (0 <=? p)%Z then (s * 10 ^ p * den ?= x)%Z
  else (s * den ?= x * 10 ^ (- p))%Z.

(** The largest [s] with [s * 10^p] at most the number. *)
Definition floor_decimal (p : Z) : Z :=
  if (0 <=? p)%Z then (at_value / (den * 10 ^ p))%Z
  else (at_value * 10 ^ (- p) / den)%Z.

(** [s * 10^p] reads back as the number: it lies between the midpoints,
    which count when the mantissa is even. *)
Definition rounds_here (s p : Z) : bool :=
  let closed := Z.even (Z.pos m) in
  match compare_decimal s p at_low with
  | Gt => true | Eq => closed | Lt => false
  end
  && match compare_decimal s p at_high with
     | Lt => true | Eq => closed | Gt => false
     end.

(** The [n] with [10^(n-1) <= m * 2^e < 10^n]. *)
Definition decade : Z :=
  let est := ((Z.log2 (Z.pos m) + e) * 30103 / 100000)%Z in
  let est := match compare_decimal 1 est at_value with Gt => (est - 1)%Z | _ => est end in
  let est := match compare_decimal 1 est at_value with Gt => (est - 1)%Z | _ => est end in
  let est := match compare_decimal 1 (est + 1) at_value with Gt => est | _ => (est + 1)%Z end in
  let est := match compare_decimal 1 (est + 1) at_value with Gt => est | _ => (est + 1)%Z end in
  (est + 1)%Z.

(** The shortest [s * 10^p] that reads back as the number, tried with [k],
    [k + 1], ... digits; seventeen digits always do. *)
Fixpoint shortest (fuel : nat) (k : Z) : Z * Z :=
  let p := (decade - k)%Z in
  let s := floor_decimal p in
  match fuel with
  | O => (s, p)
  | S fuel' =>
      match rounds_here s p, rounds_here (s + 1) p with
      | true, false => (s, p)
      | false, true => ((s + 1)%Z, p)
      | true, true =>
          match compare_decimal (2 * s + 1) p (2 * at_value) with
          | Gt => (s, p)
          | Lt => ((s + 1)%Z, p)
          | Eq => if Z.even s then (s, p) else ((s + 1)%Z, p)
          end
      | false, false => shortest fuel' (k + 1)%Z
      end
  end.

End Digits.

Fixpoint strip_zeros (fuel : nat) (s : Z) : Z :=
  match fuel with
  | O => s
  | S fuel' => if (s mod 10 =? 0)%Z then strip_zeros fuel' (s / 10)%Z else s
  end.

Fixpoint zeros (n : nat) : string :=
  match n with
  | O => ""
  | S n' => "0" +:+ zeros n'
  end.

(** The layout of the digits of a number in [10^(n-1), 10^n). *)
Definition layout (digits : string) (n : Z) : string :=
  let k := Z.of_nat (String.length digits) in
  if (k <=? n)%Z && (n <=? 21)%Z then digits +:+ zeros (Z.to_nat (n - k))
  else if (0 <? n)%Z && (n <=? 21)%Z then
    substring 0 (Z.to_nat n) digits +:+ "." +:+
    substring (Z.to_nat n) (Z.to_nat (k - n)) digits
  else if (-6 <? n)%Z && (n <=? 0)%Z then
    "0." +:+ zeros (Z.to_nat (- n)) +:+ digits
  else
    let exponent :=
      (if (0 <=? n - 1)%Z then "+" else "-") +:+ pretty (Z.abs (n - 1)) in
    if (k =? 1)%Z then digits +:+ "e" +:+ exponent
    else substring 0 1 digits +:+ "." +:+ substring 1 (Z.to_nat (k - 1)) digits
           +:+ "e" +:+ exponent.

End Decimal.

Definition example_Number_toString (n : float) : string :=
  match Prim2SF n with
  | S754_nan => "NaN"
  | S754_zero _ => "0"
  | S754_infinity sign => if sign then "-Infinity" else "Infinity"
  | S754_finite sign m e =>
      let '(s, p) := Decimal.shortest m e 17 1 in
      (if sign then "-" else "") +:+
      Decimal.layout (pretty (Decimal.strip_zeros 20 s))
        (p + Z.of_nat (String.length (pretty s)))
  end.

Definition example_runtime : Builtins :=
  {| Number_toString := example_Number_toString;
     Math_sqrt := PrimFloat.sqrt;
     Math_pow := fun _ _ => nan;
     Math_log := fun _ => nan;
     Math_sin := fun _ => nan;
     Math_cos := fun _ => nan;
     Math_tan := fun _ => nan |}.

(** ** The bounds of the configuration record, as the specification declares
       them *)

Definition name_within_bounds (v : JSValue) : Prop :=
  exists s, v = JSString s /\ 2 <= String.length s <= 100.

Definition version_within_bounds (v : JSValue) : Prop :=
  exists s, v = JSString s /\ 1 <= String.length s <= 10.

Definition host_within_bounds (v : JSValue) : Prop :=
  v = JSUndefined \/ exists s, v = JSString s /\ 2 <= String.length s <= 100.

Definition port_within_bounds (v : JSValue) : Prop :=
  v = JSUndefined \/
  exists n, v = JSNumber n /\ (1 <=? n)%float = true /\ (n <=? 65535)%float = true.

Definition transportMode_recognized (v : JSValue) : Prop :=
  v = JSUndefined \/ v = JSString "stdio" \/ v = JSString "streamable-http".

Definition transport_recognized (v : JSValue) : Prop :=
  v = JSUndefined \/ (exists t, v = JSHttpTransport t) \/ (exists t, v = JSStdioTransport t).

(** ** What construction and the requests produce *)

(** The transport that [initializeTransport] selects for a validated
    configuration. *)
Definition selected_http (cfg : BaseMCPConfig) (fresh : nat)
    : option StreamableHTTPServerTransport :=
  match cfg_transportMode cfg with
  | streamable_http =>
      Some match cfg_transport cfg with
           | Some (HttpTransport t) => t
           | _ => {| http_ref := fresh; sessionIdGenerator := None |}
           end
  | stdio => None
  end.

Definition selected_stdio (cfg : BaseMCPConfig) (fresh : nat)
    : option StdioServerTransport :=
  match cfg_transportMode cfg with
  | streamable_http => None
  | stdio =>
      Some match cfg_transport cfg with
           | Some (StdioTransport t) => t
           | _ => {| stdio_ref := fresh |}
           end
  end.

(** The tools that the registration hook of each class leaves in the
    registry. *)
Definition class_tools (cls : ServerClass) : gmap string RegisteredTool :=
  match cls with
  | GreetingsMCP =>
      <["regiter_custom_greeting" :=
          {| callback := this_registerCustomGreeting;
             tool_config := register_custom_greeting_config |}]>
        (<["greet" := {| callback := this_greet; tool_config := greet_config |}]> ∅)
  | CalculatorMCP =>
      <["advanced_math" :=
          {| callback := this_advancedMath; tool_config := advanced_math_config |}]>
        (<["calculate" :=
             {| callback := this_calculate; tool_config := calculate_config |}]> ∅)
  end.

Definition class_resources (cls : ServerClass) : gmap string RegisteredResource :=
  match cls with
  | GreetingsMCP =>
      <["notice.txt" :=
          {| uri := "https://shivajichk.ac.in/pdf/1_International_Yoga_Day_Celebration_ATR.pdf";
             resource_config :=
               {| resource_description := "A sample notice file";
                  resource_content :=
                    Some "/Users/aman/Developer/SynergyBoat/content-gen/src/assets/pdf/notice.pdf";
                  resource_metadata := None |};
             readCallback := this_getNoticeContent |}]> ∅
  | CalculatorMCP => ∅
  end.

(** The server that the constructor builds from a validated configuration. *)
Definition constructed (cls : ServerClass) (cfg : BaseMCPConfig) (fresh : nat)
    : BaseMCPServer :=
  {| _registeredTools := class_tools cls;
     _registeredResources := class_resources cls;
     _transport := None;
     name := cfg_name cfg;
     version := cfg_version cfg;
     host := cfg_host cfg;
     port := cfg_port cfg;
     transportMode := cfg_transportMode cfg;
     httpTransporter := selected_http cfg fresh;
     stdioTransporter := selected_stdio cfg fresh |}.

(** [same_state this this']: the configuration and the transport handles of
    [this'] are those of [this]. *)
Definition same_state (this this' : BaseMCPServer) : Prop :=
  name this' = name this /\ version this' = version this
  /\ host this' = host this /\ port this' = port this
  /\ transportMode this' = transportMode this
  /\ httpTransporter this' = httpTransporter this
  /\ stdioTransporter this' = stdioTransporter this.

(** A configuration read without the handle it supplies. *)
Definition without_transport (params : JSObject) : JSObject :=
  ("transport", JSUndefined) :: params.

(** The result that [registerCustomGreeting] returns. *)
Definition custom_greeting_registered : CallToolResult :=
  {| content :=
       [ {| type := "text";
            text := "Custom greeting registered successfully!" |} ];
     structuredContent :=
       Some [("text", JSString "Custom greeting registered successfully!")] |}.

(** The payload of a division by zero. *)
Definition division_by_zero : CallToolResult :=
  {| content := [ {| type := "text"; text := "Error: Division by zero" |} ];
     structuredContent := Some [("error", JSString "Division by zero")] |}.

(** ** Concrete configurations

    The configuration of std-app.ts, the one of app.ts, the one of the
    specification's greeting scenario, and variations of them. *)

Definition stdio_params : JSObject :=
  [("name", JSString "Greetings MCP"); ("version", JSString "1.0.0");
   ("host", JSString "localhost"); ("port", JSNumber 3000);
   ("transportMode", JSString "stdio")].

Definition http_params : JSObject :=
  [("name", JSString "Greetings MCP"); ("version", JSString "1.0.0");
   ("host", JSString "localhost"); ("port", JSNumber 3000);
   ("transportMode", JSString "streamable-http")].

Definition minimal_params : JSObject :=
  [("name", JSString "Greetings MCP"); ("version", JSString "1.0.0")].

Definition scenario_params : JSObject :=
  [("name", JSString "T"); ("version", JSString "1.0");
   ("transportMode", JSString "stdio")].

Definition stdio_config : BaseMCPConfig :=
  {| cfg_name := "Greetings MCP"; cfg_version := "1.0.0";
     cfg_host := "localhost"; cfg_port := 3000;
     cfg_transportMode := stdio; cfg_transport := None |}.

Definition fractional_port_params : JSObject :=
  [("name", JSString "Greetings MCP"); ("version", JSString "1.0.0");
   ("port", JSNumber 3000.5)].

Definition mismatched_params : JSObject :=
  [("name", JSString "Greetings MCP"); ("version", JSString "1.0.0");
   ("transportMode", JSString "streamable-http");
   ("transport", JSStdioTransport {| stdio_ref := 0 |})].

Definition T1_params : JSObject :=
  [("name", JSString "T1"); ("version", JSString "1.0");
   ("transportMode", JSString "stdio")].

Definition T1_config : BaseMCPConfig :=
  {| cfg_name := "T1"; cfg_version := "1.0"; cfg_host := "localhost";
     cfg_port := 3000; cfg_transportMode := stdio; cfg_transport := None |}.

(** ** Reading the notice (pdf-to-text.ts, greetings.mcp.server.ts) *)

(** What [stat] reports of a path. *)
Record Stats : Type := {
  isFile : bool;
  size : float
}.

(** [TFileExtractOpts]; an absent option is [None]. *)
Record TFileExtractOpts : Type := {
  maxBytes : option float;
  pdfParse : option JSObject
}.

(** The file system and the PDF parser ([stat] and [readFile] of
    node:fs/promises, [PdfParse] of pdf-parse), each of which may reject.
    The model takes them as given; a buffer is the string of its bytes. *)
Class FileSystem : Type := {
  stat : string -> Outcome Stats;
  readFile : string -> Outcome string;
  PdfParse : string -> JSObject -> Outcome string
}.

(** An entry of the [contents] of a resource. *)
Record ResourceContents : Type := {
  contents_text : string;
  contents_uri : string;
  mimeType : string
}.

Section Files.

Context {runtime : Builtins} {fs : FileSystem}.

(** [extractPdfTextFromFile(filePath, opts = {})] *)
Definition extractPdfTextFromFile (filePath : string) (opts : TFileExtractOpts)
    : Outcome string :=
  let maxBytes' := default (25 * 1024 * 1024)%float (maxBytes opts) in
  let pdfParseOpts := default [] (pdfParse opts) in
  match stat filePath with
  | Throw e => Throw e
  | Return info =>
      if negb (isFile info) then Throw (Error ("Not a file: " +:+ filePath))
      else if PrimFloat.ltb maxBytes' (size info) then
        Throw (Error ("PDF too large: " +:+ Number_toString (size info) +:+ " bytes"))
      else
        match readFile filePath with
        | Throw e => Throw e
        | Return buf => PdfParse buf pdfParseOpts
        end
  end.

(** [getNoticeContent()] of [GreetingsMCP]: the [contents] of the notice. *)
Definition getNoticeContent : Outcome (list ResourceContents) :=
  match extractPdfTextFromFile
          "/Users/aman/Developer/SynergyBoat/content-gen/src/assets/pdf/notice.pdf"
          {| maxBytes := None; pdfParse := None |} with
  | Throw e => Throw e
  | Return pdfText =>
      Return [ {| contents_text := pdfText;
                  contents_uri := "notice.txt";
                  mimeType := "text/plain" |} ]
  end.

End Files.

(** ** WeatherMCP: the current weather *)

Inductive Units : Type :=
| celsius
| fahrenheit.

Record GetWeatherArgs : Type := {
  location : string;
  units : Units
}.

(** The code unit U+00B0 of the weather text. *)
Definition degree_sign : string := String "176"%char "".

(** The configuration under which [registerComponents] of [WeatherMCP]
    registers the tool "get_weather". *)
Definition get_weather_config : ToolConfig GetWeatherArgs :=
  {| description := "Get current weather for a location";
     inputSchema := fun o =>
       Valid Build_GetWeatherArgs
         <*> at_key "location" (z.max 100 (z.min 1 z.string) (prop o "location"))
         <*> at_key "units"
               (z.default (JSString "celsius")
                  (z.enum [("celsius", celsius); ("fahrenheit", fahrenheit)])
                  (prop o "units"));
     outputSchema := fun o =>
       Valid (fun t d h w =>
                [("temperature", JSNumber t); ("description", JSString d);
                 ("humidity", JSNumber h); ("windSpeed", JSNumber w)])
         <*> at_key "temperature" (z.number (prop o "temperature"))
         <*> at_key "description" (z.string (prop o "description"))
         <*> at_key "humidity" (z.number (prop o "humidity"))
         <*> at_key "windSpeed" (z.number (prop o "windSpeed")) |}.

Section Weather.

Context {runtime : Builtins}.

(** [getWeather(args)] *)
Definition getWeather (args : GetWeatherArgs) : CallToolResult :=
  let mockTemp :=
    match units args with celsius => 22%float | fahrenheit => 72%float end in
  {| content :=
       [ {| type := "text";
            text := "Current weather in " +:+ location args +:+ ": "
                      +:+ Number_toString mockTemp +:+ degree_sign +:+ " "
                      +:+ match units args with celsius => "C" | fahrenheit => "F" end
                      +:+ ", Partly cloudy" |} ];
     structuredContent :=
       Some [("temperature", JSNumber mockTemp);
             ("description", JSString "Partly cloudy");
             ("humidity", JSNumber 65);
             ("windSpeed", JSNumber 10)] |}.

End Weather.

(** ** The HTTP application (app.ts) *)

Record Response : Type := {
  status : nat;
  json : JSObject
}.

(** What the route does with a request: it answers itself, or it hands the
    request to [handleRequest] of the transport. *)
Inductive Routed : Type :=
| Responded (res : Response)
| HandleRequest (httpTransporter : StreamableHTTPServerTransport).

(** The handler of [app.post('/greet', ...)] for the server [greetingMCP]. *)
Definition post_greet (greetingMCP : BaseMCPServer) : Routed :=
  match getHTTPTransporter greetingMCP with
  | None =>
      Responded {| status := 500;
                   json := [("error", JSString "HTTP transporter is not available")] |}
  | Some httpTransporter => HandleRequest httpTransporter
  end.

(** ** More vocabulary of the statements *)

(** The arithmetic of the four operations of [calculate]. *)
Definition arithmetic (op : string) (x y : float) : float :=
  if String.eqb op "add" then (x + y)%float
  else if String.eqb op "subtract" then (x - y)%float
  else if String.eqb op "multiply" then (x * y)%float
  else (x / y)%float.

(** [Number.isFinite] *)
Definition Number_isFinite (n : float) : bool :=
  match Prim2SF n with
  | S754_zero _ | S754_finite _ _ _ => true
  | _ => false
  end.

(** The structured payload of a result, empty when there is none. *)
Definition payload (r : CallToolResult) : JSObject :=
  default [] (structuredContent r).

(** A file system in which every path is a regular file of the given size
    whose text parses to the given string. *)
Definition one_file (bytes : float) (parsed : string) : FileSystem :=
  {| stat := fun _ => Return {| isFile := true; size := bytes |};
     readFile := fun _ => Return "%PDF";
     PdfParse := fun _ _ => Return parsed |}.

(** A configuration in mode "streamable-http" that supplies a transport of
    its own, with a session-identifier generator. *)
Definition own_http_transport : StreamableHTTPServerTransport :=
  {| http_ref := 7; sessionIdGenerator := Some (fun n => "session_" +:+ pretty n) |}.

Definition own_transport_params : JSObject :=
  [("name", JSString "Greetings MCP"); ("version", JSString "1.0.0");
   ("transportMode", JSString "streamable-http");
   ("transport", JSHttpTransport own_http_transport)].

(** [grown this this']: the registries of [this'] are those of [this], but
    for a tool that may have been added under "custom_greet". *)
Definition grown (this this' : BaseMCPServer) : Prop :=
  (forall n tool, _registeredTools this !! n = Some tool ->
                  _registeredTools this' !! n = Some tool)
  /\ (forall n, n <> "custom_greet" ->
                _registeredTools this' !! n = _registeredTools this !! n)
  /\ _registeredResources this' = _registeredResources this.

(** The descriptors under which the example classes register their tools. *)
Definition source_tools : list RegisteredTool :=
  [ {| callback := this_greet; tool_config := greet_config |};
    {| callback := this_registerCustomGreeting;
       tool_config := register_custom_greeting_config |};
    {| callback := this_customGreet; tool_config := custom_greet_config |};
    {| callback := this_calculate; tool_config := calculate_config |};
    {| callback := this_advancedMath; tool_config := advanced_math_config |} ].

(** [from_source this]: every tool of the registry is one of them. *)
Definition from_source (this : BaseMCPServer) : Prop :=
  forall n tool, _registeredTools this !! n = Some tool -> In tool source_tools.

(** * Properties *)

(** ** Comparisons of binary64 numbers *)

Lemma SFcompare_swap (x y : spec_float) :
  SFcompare y x = option_map CompOpp (SFcompare x y).
Proof.
  destruct x as [sx|sx| |sx mx ex], y as [sy|sy| |sy my ey]; simpl;
    try reflexivity;
    try (destruct sx; reflexivity); try (destruct sy; reflexivity);
    try (destruct sx, sy; reflexivity).
  destruct sx, sy; simpl; try reflexivity;
    rewrite (Z.compare_antisym ex ey);
    destruct (ex ?= ey)%Z; simpl; try reflexivity;
    rewrite (Pos.compare_cont_antisym mx my Eq); reflexivity.
Qed.

Lemma SFcompare_None (x y : spec_float) :
  SFcompare x y = None -> x = S754_nan \/ y = S754_nan.
Proof.
  destruct x as [sx|sx| |sx mx ex], y as [sy|sy| |sy my ey]; simpl;
    try discriminate; auto.
Qed.

(** For numbers that are not [NaN], [not (x < y)] is [y <= x]. *)
Lemma not_ltb_leb (x y : float) :
  (x =? x)%float = true -> (y =? y)%float = true ->
  (x <? y)%float = false -> (y <=? x)%float = true.
Proof.
  rewrite !FloatAxioms.eqb_spec, FloatAxioms.ltb_spec, FloatAxioms.leb_spec.
  unfold SFeqb, SFltb, SFleb. rewrite (SFcompare_swap (Prim2SF x) (Prim2SF y)).
  intros Hx Hy.
  destruct (SFcompare (Prim2SF x) (Prim2SF y)) as [[]|] eqn:Ec; simpl;
    try discriminate; try reflexivity.
  destruct (SFcompare_None _ _ Ec) as [E|E]; rewrite E in *; discriminate.
Qed.

Lemma leb_not_ltb (x y : float) :
  (y <=? x)%float = true -> (x <? y)%float = false.
Proof.
  rewrite FloatAxioms.ltb_spec, FloatAxioms.leb_spec. unfold SFltb, SFleb.
  rewrite (SFcompare_swap (Prim2SF x) (Prim2SF y)).
  destruct (SFcompare _ _) as [[]|]; simpl; congruence.
Qed.

Lemma leb_not_nan (x y : float) :
  (x <=? y)%float = true -> (y =? y)%float = true.
Proof.
  rewrite FloatAxioms.eqb_spec, FloatAxioms.leb_spec. unfold SFeqb, SFleb.
  destruct (Prim2SF x) as [sx|sx| |sx mx ex], (Prim2SF y) as [sy|sy| |sy my ey];
    simpl; try discriminate; try reflexivity;
    try (destruct sy; reflexivity); intros _;
    destruct sy; rewrite Z.compare_refl, Pos.compare_cont_refl; reflexivity.
Qed.

(** ** The fields of the configuration schema, one at a time *)

Lemma string_field (k : string) (lo hi : nat) (v : JSValue) :
  match at_key k (z.max hi (z.min lo z.string) v) with
  | Valid s => v = JSString s /\ lo <= String.length s <= hi
  | Invalid _ => ~ exists s, v = JSString s /\ lo <= String.length s <= hi
  end.
Proof.
  unfold z.max, z.min, with_check, z.string, at_key.
  destruct v; simpl; try (intros (s' & [=] & _)).
  destruct (Nat.ltb_spec (String.length s) lo); simpl.
  - intros (s' & [= <-] & ?). lia.
  - destruct (Nat.ltb_spec hi (String.length s)); simpl.
    + intros (s' & [= <-] & ?). lia.
    + split; [reflexivity | lia].
Qed.

Lemma name_field (v : JSValue) :
  match at_key "name" (z.max 100 (z.min 2 z.string) v) with
  | Valid s => v = JSString s /\ 2 <= String.length s <= 100
  | Invalid _ => ~ name_within_bounds v
  end.
Proof. apply string_field. Qed.

Lemma version_field (v : JSValue) :
  match at_key "version" (z.max 10 (z.min 1 z.string) v) with
  | Valid s => v = JSString s /\ 1 <= String.length s <= 10
  | Invalid _ => ~ version_within_bounds v
  end.
Proof. apply string_field. Qed.

Lemma host_field (v : JSValue) :
  match at_key "host"
          (z.default (JSString "localhost") (z.max 100 (z.min 2 z.string)) v) with
  | Valid s =>
      (v = JSUndefined /\ s = "localhost") \/
      (v = JSString s /\ 2 <= String.length s <= 100)
  | Invalid _ => ~ host_within_bounds v
  end.
Proof.
  pose proof (string_field "host" 2 100 v) as H. revert H.
  unfold host_within_bounds.
  destruct v; try (simpl; intros H [[=]|E]; exact (H E)).
  - intros _. left. split; reflexivity.
  - unfold z.default. destruct (at_key _ _); [tauto|].
    intros H [[=]|E]. exact (H E).
Qed.

Lemma number_bounds (n : float) :
  match z.nmax 65535 (z.nmin 1 z.number) (JSNumber n) with
  | Valid m => m = n /\ (1 <=? n)%float = true /\ (n <=? 65535)%float = true
  | Invalid _ => ~ ((1 <=? n)%float = true /\ (n <=? 65535)%float = true)
  end.
Proof.
  unfold z.nmax, z.nmin, with_check, z.number.
  destruct (n =? n)%float eqn:En; simpl.
  - destruct (n <? 1)%float eqn:E1; simpl.
    + intros [H _]. apply leb_not_ltb in H. congruence.
    + destruct (65535 <? n)%float eqn:E2; simpl.
      * intros [_ H]. apply leb_not_ltb in H. congruence.
      * repeat split; apply not_ltb_leb; auto.
  - intros [H _]. apply leb_not_nan in H. congruence.
Qed.

Lemma port_field (v : JSValue) :
  match at_key "port"
          (z.default (JSNumber 3000) (z.nmax 65535 (z.nmin 1 z.number)) v) with
  | Valid n =>
      ((v = JSUndefined /\ n = 3000%float) \/ v = JSNumber n) /\
      (1 <=? n)%float = true /\ (n <=? 65535)%float = true
  | Invalid _ => ~ port_within_bounds v
  end.
Proof.
  unfold port_within_bounds.
  destruct v; try (simpl; intros [[=]|(m & [=] & _)]).
  - vm_compute. auto.
  - pose proof (number_bounds n) as H. revert H.
    unfold z.default, at_key.
    destruct (z.nmax _ _ _).
    + intros (-> & H1 & H2). auto.
    + intros H [[=]|(m & [= <-] & E)]. exact (H E).
Qed.

Lemma transportMode_field (v : JSValue) :
  match at_key "transportMode"
          (z.default (JSString "stdio") z_enum_TransportMode v) with
  | Valid m =>
      (v = JSUndefined /\ m = stdio) \/ v = JSString (TransportMode_string m)
  | Invalid _ => ~ transportMode_recognized v
  end.
Proof.
  unfold transportMode_recognized.
  destruct v; try (simpl; intros [[=]|[[=]|[=]]]).
  - simpl. auto.
  - unfold z.default, z_enum_TransportMode, z.enum, at_key, find, fst, snd.
    destruct (String.eqb_spec "streamable-http" s) as [<-|N1]; [right; reflexivity|].
    destruct (String.eqb_spec "stdio" s) as [<-|N2]; [right; reflexivity|].
    intros [[=]|[[=]|[=]]]; congruence.
Qed.

Lemma transport_field (v : JSValue) :
  match at_key "transport"
          (z.optional (z.union z_instanceof_http z_instanceof_stdio) v) with
  | Valid t =>
      (v = JSUndefined /\ t = None) \/
      (exists h, v = JSHttpTransport h /\ t = Some (HttpTransport h)) \/
      (exists h, v = JSStdioTransport h /\ t = Some (StdioTransport h))
  | Invalid _ => ~ transport_recognized v
  end.
Proof.
  unfold transport_recognized.
  destruct v; simpl; eauto;
    intros [[=]|[[t [=]]|[t [=]]]].
Qed.

(** The validator accepts exactly the records whose six fields are within
    their bounds, and returns them with the defaults filled in. *)
Lemma BaseMCPConfigSchema_spec (params : JSObject) :
  match BaseMCPConfigSchema params with
  | Valid cfg =>
      (prop params "name" = JSString (cfg_name cfg)
       /\ 2 <= String.length (cfg_name cfg) <= 100)
      /\ (prop params "version" = JSString (cfg_version cfg)
          /\ 1 <= String.length (cfg_version cfg) <= 10)
      /\ ((prop params "host" = JSUndefined /\ cfg_host cfg = "localhost") \/
          (prop params "host" = JSString (cfg_host cfg)
           /\ 2 <= String.length (cfg_host cfg) <= 100))
      /\ (((prop params "port" = JSUndefined /\ cfg_port cfg = 3000%float) \/
           prop params "port" = JSNumber (cfg_port cfg))
          /\ (1 <=? cfg_port cfg)%float = true
          /\ (cfg_port cfg <=? 65535)%float = true)
      /\ ((prop params "transportMode" = JSUndefined /\ cfg_transportMode cfg = stdio)
          \/ prop params "transportMode"
             = JSString (TransportMode_string (cfg_transportMode cfg)))
      /\ ((prop params "transport" = JSUndefined /\ cfg_transport cfg = None) \/
          (exists h, prop params "transport" = JSHttpTransport h
                     /\ cfg_transport cfg = Some (HttpTransport h)) \/
          (exists h, prop params "transport" = JSStdioTransport h
                     /\ cfg_transport cfg = Some (StdioTransport h)))
  | Invalid _ =>
      ~ name_within_bounds (prop params "name")
      \/ ~ version_within_bounds (prop params "version")
      \/ ~ host_within_bounds (prop params "host")
      \/ ~ port_within_bounds (prop params "port")
      \/ ~ transportMode_recognized (prop params "transportMode")
      \/ ~ transport_recognized (prop params "transport")
  end.
Proof.
  pose proof (name_field (prop params "name")) as H1.
  pose proof (version_field (prop params "version")) as H2.
  pose proof (host_field (prop params "host")) as H3.
  pose proof (port_field (prop params "port")) as H4.
  pose proof (transportMode_field (prop params "transportMode")) as H5.
  pose proof (transport_field (prop params "transport")) as H6.
  revert H1 H2 H3 H4 H5 H6. unfold BaseMCPConfigSchema.
  destruct (at_key "name" _), (at_key "version" _), (at_key "host" _),
    (at_key "port" _), (at_key "transportMode" _), (at_key "transport" _);
    simpl; intros; tauto.
Qed.

(** ** Construction *)

Lemma registerTool_fresh (name : string) (cb : ToolCallback)
    (config : ToolConfig (Args cb)) (this : BaseMCPServer) :
  _registeredTools this !! name = None ->
  registerTool name cb config this
  = (Return tt,
     set_registeredTools
       (insert name {| callback := cb; tool_config := config |}) this).
Proof. intros H. unfold registerTool. rewrite H. reflexivity. Qed.

Lemma registerTool_taken (name : string) (cb : ToolCallback)
    (config : ToolConfig (Args cb)) (this : BaseMCPServer) :
  is_Some (_registeredTools this !! name) ->
  registerTool name cb config this = (Throw (DuplicateNameError name), this).
Proof. intros [t H]. unfold registerTool. rewrite H. reflexivity. Qed.

(** On the empty registries that [super(params)] leaves, the registration
    hook of each class succeeds and touches the registries only. *)
Lemma registerComponents_empty (cls : ServerClass) (this : BaseMCPServer) :
  _registeredTools this = ∅ -> _registeredResources this = ∅ ->
  registerComponents cls this
  = (Return tt,
     {| _registeredTools := class_tools cls;
        _registeredResources := class_resources cls;
        _transport := _transport this;
        name := name this; version := version this; host := host this;
        port := port this; transportMode := transportMode this;
        httpTransporter := httpTransporter this;
        stdioTransporter := stdioTransporter this |}).
Proof.
  destruct this as [tools resources tr n v h p m ht st]; simpl.
  intros -> ->.
  destruct cls; unfold registerComponents, GreetingsMCP_registerComponents,
    CalculatorMCP_registerComponents, registerToolHelper, registerResourceHelper,
    registerResource, bind.
  - rewrite registerTool_fresh by apply lookup_empty.
    unfold set_registeredTools at 1; simpl. rewrite lookup_empty.
    unfold set_registeredResources; simpl.
    rewrite registerTool_fresh
      by (simpl; rewrite lookup_insert_ne by discriminate; apply lookup_empty).
    reflexivity.
  - rewrite registerTool_fresh by apply lookup_empty.
    rewrite registerTool_fresh
      by (simpl; rewrite lookup_insert_ne by discriminate; apply lookup_empty).
    reflexivity.
Qed.

(** Construction succeeds on every configuration that the validator accepts,
    and the new server holds the validated configuration, the selected
    transport and the tools of its class. *)
Lemma new_Valid (cls : ServerClass) (params : JSObject) (fresh : nat)
    (cfg : BaseMCPConfig) :
  BaseMCPConfigSchema params = Valid cfg ->
  new cls params fresh = Return (constructed cls cfg fresh).
Proof.
  intros H.
  unfold new, constructed, selected_http, selected_stdio, bind. rewrite H.
  unfold initializeTransport; simpl.
  destruct (cfg_transportMode cfg) eqn:Em, (cfg_transport cfg) as [[]|] eqn:Et;
    rewrite registerComponents_empty by reflexivity; simpl;
    rewrite ?Em; reflexivity.
Qed.

Lemma new_Invalid (cls : ServerClass) (params : JSObject) (fresh : nat)
    (issues : list ZodIssue) :
  BaseMCPConfigSchema params = Invalid issues ->
  new cls params fresh = Throw (ZodError issues).
Proof. intros H. unfold new. rewrite H. reflexivity. Qed.

(** A server is returned only for an accepted configuration. *)
Lemma new_Return_inv (cls : ServerClass) (params : JSObject) (fresh : nat)
    (this : BaseMCPServer) :
  new cls params fresh = Return this ->
  exists cfg, BaseMCPConfigSchema params = Valid cfg.
Proof.
  unfold new. destruct (BaseMCPConfigSchema params); [eauto | discriminate].
Qed.

(** ** What the requests leave untouched *)

Lemma same_state_refl (this : BaseMCPServer) : same_state this this.
Proof. unfold same_state. tauto. Qed.

Lemma same_state_trans (s1 s2 s3 : BaseMCPServer) :
  same_state s1 s2 -> same_state s2 s3 -> same_state s1 s3.
Proof. unfold same_state. intuition congruence. Qed.

Lemma registerTool_same_state (name : string) (cb : ToolCallback)
    (config : ToolConfig (Args cb)) (this : BaseMCPServer) :
  same_state this (snd (registerTool name cb config this)).
Proof.
  unfold registerTool, same_state. destruct (_ !! _); simpl; tauto.
Qed.

Section Requests.

Context {runtime : Builtins}.

Lemma invoke_same_state (cb : ToolCallback) (args : Args cb)
    (this : BaseMCPServer) :
  same_state this (snd (invoke cb args this)).
Proof.
  destruct cb; simpl; try apply same_state_refl.
  unfold registerCustomGreeting, bind, registerToolHelper.
  pose proof (registerTool_same_state "custom_greet" this_customGreet
                custom_greet_config this) as H.
  destruct (registerTool _ _ _ this) as [[[]|e] this']; simpl in *; exact H.
Qed.

Lemma runTool_same_state (tool : RegisteredTool) (args : JSObject)
    (this : BaseMCPServer) :
  same_state this (snd (runTool tool args this)).
Proof.
  unfold runTool. destruct (inputSchema _ _) as [validated|issues]; simpl.
  - pose proof (invoke_same_state (callback tool) validated this) as H.
    destruct (invoke _ _ this) as [[r|e] this']; simpl in *; exact H.
  - apply same_state_refl.
Qed.

Lemma callTool_same_state (name : string) (args : JSObject)
    (this : BaseMCPServer) :
  same_state this (snd (callTool name args this)).
Proof.
  unfold callTool. destruct (_ !! _).
  - apply runTool_same_state.
  - apply same_state_refl.
Qed.

Lemma connect_same_state (this : BaseMCPServer) :
  same_state this (snd (connect this)).
Proof.
  unfold connect, same_state. destruct (getTransporter this); simpl; tauto.
Qed.

Lemma serve_same_state (r : Request) (this : BaseMCPServer) :
  same_state this (serve r this).
Proof.
  destruct r; simpl.
  - apply callTool_same_state.
  - apply connect_same_state.
  - apply connect_same_state.
  - apply same_state_refl.
  - apply same_state_refl.
Qed.

Lemma serve_all_same_state (rs : list Request) (this : BaseMCPServer) :
  same_state this (serve_all rs this).
Proof.
  unfold serve_all. revert this.
  induction rs as [|r rs IH]; intros this; simpl.
  - apply same_state_refl.
  - eapply same_state_trans; [apply serve_same_state | apply IH].
Qed.

End Requests.

(** ** The validator *)

Lemma Valid_within_bounds (params : JSObject) (cfg : BaseMCPConfig) :
  BaseMCPConfigSchema params = Valid cfg ->
  name_within_bounds (prop params "name")
  /\ version_within_bounds (prop params "version")
  /\ host_within_bounds (prop params "host")
  /\ port_within_bounds (prop params "port")
  /\ transportMode_recognized (prop params "transportMode")
  /\ transport_recognized (prop params "transport").
Proof.
  intros H. pose proof (BaseMCPConfigSchema_spec params) as S. rewrite H in S.
  destruct S as ((En & Bn) & (Ev & Bv) & Hh & (Hp & Bp1 & Bp2) & Hm & Ht).
  unfold name_within_bounds, version_within_bounds, host_within_bounds,
    port_within_bounds, transportMode_recognized, transport_recognized.
  repeat split.
  - eauto.
  - eauto.
  - destruct Hh as [[-> _]|[E B]]; eauto.
  - destruct Hp as [[-> _]|E]; eauto.
  - destruct Hm as [[-> _]|E]; [auto|].
    rewrite E. destruct (cfg_transportMode cfg); simpl; auto.
  - destruct Ht as [[-> _]|[(h & -> & _)|(h & -> & _)]]; eauto.
Qed.

Lemma violation_Invalid (params : JSObject) :
  ~ name_within_bounds (prop params "name")
  \/ ~ version_within_bounds (prop params "version")
  \/ ~ host_within_bounds (prop params "host")
  \/ ~ port_within_bounds (prop params "port")
  \/ ~ transportMode_recognized (prop params "transportMode")
  \/ ~ transport_recognized (prop params "transport") ->
  exists issues, BaseMCPConfigSchema params = Invalid issues.
Proof.
  intros V. destruct (BaseMCPConfigSchema params) as [cfg|issues] eqn:E.
  - apply Valid_within_bounds in E. tauto.
  - eauto.
Qed.

Lemma within_bounds_Valid (params : JSObject) :
  name_within_bounds (prop params "name") ->
  version_within_bounds (prop params "version") ->
  host_within_bounds (prop params "host") ->
  port_within_bounds (prop params "port") ->
  transportMode_recognized (prop params "transportMode") ->
  transport_recognized (prop params "transport") ->
  exists cfg, BaseMCPConfigSchema params = Valid cfg.
Proof.
  intros. pose proof (BaseMCPConfigSchema_spec params) as S.
  destruct (BaseMCPConfigSchema params) as [cfg|issues]; [eauto | tauto].
Qed.

(** C1. A raw configuration whose name, version, host, port, transport mode
    and transport handle are within the bounds of the schema, an omitted
    host, port, mode or handle included, is accepted, and construction
    succeeds on it.  Every accepted configuration comes back fully populated:
    the supplied name and version, [1 <= len(version) <= 10],
    [2 <= len(name) <= 100], [1 <= port <= 65535], a transport mode among
    "stdio" and "streamable-http"; a supplied host, port or mode is kept and
    an omitted one is replaced by "localhost", 3000, "stdio".  A
    configuration whose name, version or port is outside these bounds, or
    whose transport mode is not recognized, is rejected: the validator
    reports issues and construction throws the [ZodError] (the validation
    error) that carries them. *)
Theorem C1_validated_configuration_bounds (params : JSObject) :
  (forall cfg, BaseMCPConfigSchema params = Valid cfg ->
     1 <= String.length (cfg_version cfg) <= 10
     /\ 2 <= String.length (cfg_name cfg) <= 100
     /\ (1 <=? cfg_port cfg)%float = true
     /\ (cfg_port cfg <=? 65535)%float = true
     /\ In (TransportMode_string (cfg_transportMode cfg)) ["stdio"; "streamable-http"]
     /\ (prop params "host" = JSUndefined -> cfg_host cfg = "localhost")
     /\ (prop params "port" = JSUndefined -> cfg_port cfg = 3000%float)
     /\ (prop params "transportMode" = JSUndefined -> cfg_transportMode cfg = stdio)
     /\ forall cls fresh, exists this,
          new cls params fresh = Return this
          /\ name this = cfg_name cfg /\ version this = cfg_version cfg
          /\ host this = cfg_host cfg /\ port this = cfg_port cfg
          /\ transportMode this = cfg_transportMode cfg)
  /\ (forall cls fresh this, new cls params fresh = Return this ->
        exists cfg, BaseMCPConfigSchema params = Valid cfg)
  /\ (~ name_within_bounds (prop params "name")
      \/ ~ version_within_bounds (prop params "version")
      \/ ~ port_within_bounds (prop params "port")
      \/ ~ transportMode_recognized (prop params "transportMode") ->
      exists issues,
        BaseMCPConfigSchema params = Invalid issues
        /\ forall cls fresh, new cls params fresh = Throw (ZodError issues))
  /\ (name_within_bounds (prop params "name") ->
      version_within_bounds (prop params "version") ->
      host_within_bounds (prop params "host") ->
      port_within_bounds (prop params "port") ->
      transportMode_recognized (prop params "transportMode") ->
      transport_recognized (prop params "transport") ->
      exists cfg,
        BaseMCPConfigSchema params = Valid cfg
        /\ prop params "name" = JSString (cfg_name cfg)
        /\ prop params "version" = JSString (cfg_version cfg)
        /\ ((prop params "host" = JSUndefined /\ cfg_host cfg = "localhost")
            \/ prop params "host" = JSString (cfg_host cfg))
        /\ ((prop params "port" = JSUndefined /\ cfg_port cfg = 3000%float)
            \/ prop params "port" = JSNumber (cfg_port cfg))
        /\ ((prop params "transportMode" = JSUndefined
             /\ cfg_transportMode cfg = stdio)
            \/ prop params "transportMode"
               = JSString (TransportMode_string (cfg_transportMode cfg)))
        /\ forall cls fresh, exists this,
             new cls params fresh = Return this
             /\ name this = cfg_name cfg /\ version this = cfg_version cfg
             /\ host this = cfg_host cfg /\ port this = cfg_port cfg
             /\ transportMode this = cfg_transportMode cfg).
Proof.
  split; [|split; [|split]].
  - intros cfg H. pose proof (BaseMCPConfigSchema_spec params) as S.
    rewrite H in S.
    destruct S as ((En & Bn) & (Ev & Bv) & Hh & (Hp & Bp1 & Bp2) & Hm & Ht).
    repeat split; try lia; try assumption.
    + destruct (cfg_transportMode cfg); simpl; auto.
    + intros U. destruct Hh as [[_ E]|[E _]]; congruence.
    + intros U. destruct Hp as [[_ E]|E]; congruence.
    + intros U. destruct Hm as [[_ E]|E]; congruence.
    + intros cls fresh.
      exists (constructed cls cfg fresh).
      split; [apply new_Valid, H | repeat split].
  - intros cls fresh this. apply new_Return_inv.
  - intros V.
    destruct (violation_Invalid params) as [issues E]; [tauto|].
    exists issues. split; [exact E|].
    intros cls fresh. apply new_Invalid, E.
  - intros Bn Bv Bh Bp Bm Bt.
    destruct (within_bounds_Valid params Bn Bv Bh Bp Bm Bt) as [cfg E].
    exists cfg. split; [exact E|].
    pose proof (BaseMCPConfigSchema_spec params) as S. rewrite E in S.
    destruct S as ((En & _) & (Ev & _) & Hh & (Hp & _) & Hm & _).
    split; [exact En|]. split; [exact Ev|].
    split; [tauto|]. split; [exact Hp|]. split; [exact Hm|].
    intros cls fresh. exists (constructed cls cfg fresh).
    split; [apply new_Valid, E | repeat split].
Qed.

(** C9, as amended. A raw configuration whose port is supplied and is not a
    number between 1 and 65535 (not a number, [NaN], below 1 or above 65535)
    is rejected: construction throws a [ZodError].  The port need not be an
    integer. *)
Theorem C9_port_outside_range_rejected (cls : ServerClass) (params : JSObject)
    (fresh : nat) :
  ~ port_within_bounds (prop params "port") ->
  exists issues, new cls params fresh = Throw (ZodError issues).
Proof.
  intros V. destruct (violation_Invalid params) as [issues E]; [tauto|].
  exists issues. apply new_Invalid, E.
Qed.

(** C10. A configuration whose host is a string shorter than 2 or longer than
    100 characters is rejected: construction throws a [ZodError]. *)
Theorem C10_host_length_rejected (cls : ServerClass) (params : JSObject)
    (fresh : nat) (h : string) :
  prop params "host" = JSString h ->
  String.length h < 2 \/ 100 < String.length h ->
  exists issues, new cls params fresh = Throw (ZodError issues).
Proof.
  intros E B. destruct (violation_Invalid params) as [issues I].
  - right. right. left. rewrite E. intros [[=]|(s & [= <-] & ?)]. lia.
  - exists issues. apply new_Invalid, I.
Qed.

(** C4. On every configuration that the validator accepts, construction
    succeeds and [getMetadata()] of the new server is the name, version,
    transport mode, host and port of the validated configuration. *)
Theorem C4_getMetadata_roundtrip (cls : ServerClass) (params : JSObject)
    (fresh : nat) (cfg : BaseMCPConfig) :
  BaseMCPConfigSchema params = Valid cfg ->
  exists this,
    new cls params fresh = Return this
    /\ getMetadata this
       = {| meta_name := cfg_name cfg;
            meta_version := cfg_version cfg;
            meta_transportMode := cfg_transportMode cfg;
            meta_host := cfg_host cfg;
            meta_port := cfg_port cfg |}.
Proof.
  intros H. exists (constructed cls cfg fresh).
  split; [apply new_Valid, H | reflexivity].
Qed.

(** ** Transport selection *)

Lemma new_Return_constructed (cls : ServerClass) (params : JSObject)
    (fresh : nat) (this : BaseMCPServer) :
  new cls params fresh = Return this ->
  exists cfg,
    BaseMCPConfigSchema params = Valid cfg /\ this = constructed cls cfg fresh.
Proof.
  intros H. destruct (new_Return_inv _ _ _ _ H) as [cfg E].
  exists cfg. split; [exact E|].
  rewrite (new_Valid cls params fresh cfg E) in H. congruence.
Qed.

(** C2. On every successfully constructed server, and after any requests it
    has served since: in mode "stdio" [getHTTPTransporter()] is absent and
    [getStdioTransporter()] is present, in mode "streamable-http"
    [getHTTPTransporter()] is present and [getStdioTransporter()] is absent;
    the mode is the declared one ("stdio" when none is declared), and the
    handles and the mode are those chosen at construction. *)
Theorem C2_one_live_transport {runtime : Builtins} (cls : ServerClass)
    (params : JSObject) (fresh : nat) (this : BaseMCPServer)
    (requests : list Request) :
  new cls params fresh = Return this ->
  (transportMode this = stdio ->
     getHTTPTransporter (serve_all requests this) = None
     /\ is_Some (getStdioTransporter (serve_all requests this)))
  /\ (transportMode this = streamable_http ->
        is_Some (getHTTPTransporter (serve_all requests this))
        /\ getStdioTransporter (serve_all requests this) = None)
  /\ (prop params "transportMode" = JSString (TransportMode_string (transportMode this))
      \/ (prop params "transportMode" = JSUndefined /\ transportMode this = stdio))
  /\ transportMode (serve_all requests this) = transportMode this
  /\ getHTTPTransporter (serve_all requests this) = getHTTPTransporter this
  /\ getStdioTransporter (serve_all requests this) = getStdioTransporter this.
Proof.
  intros H. destruct (new_Return_constructed _ _ _ _ H) as (cfg & E & ->).
  destruct (serve_all_same_state requests (constructed cls cfg fresh))
    as (_ & _ & _ & _ & Sm & Sh & Ss).
  unfold getHTTPTransporter, getStdioTransporter. rewrite Sm, Sh, Ss.
  pose proof (BaseMCPConfigSchema_spec params) as S. rewrite E in S.
  destruct S as (_ & _ & _ & _ & Hm & _).
  simpl. unfold selected_http, selected_stdio.
  split; [intros ->; split; [reflexivity | eexists; reflexivity]|].
  split; [intros ->; split; [eexists; reflexivity | reflexivity]|].
  split; [tauto | repeat split].
Qed.

Lemma without_transport_Valid (params : JSObject) (cfg : BaseMCPConfig) :
  BaseMCPConfigSchema params = Valid cfg ->
  BaseMCPConfigSchema (without_transport params)
  = Valid {| cfg_name := cfg_name cfg; cfg_version := cfg_version cfg;
             cfg_host := cfg_host cfg; cfg_port := cfg_port cfg;
             cfg_transportMode := cfg_transportMode cfg;
             cfg_transport := None |}.
Proof.
  unfold BaseMCPConfigSchema, without_transport.
  change (prop (("transport", JSUndefined) :: params) "name")
    with (prop params "name").
  change (prop (("transport", JSUndefined) :: params) "version")
    with (prop params "version").
  change (prop (("transport", JSUndefined) :: params) "host")
    with (prop params "host").
  change (prop (("transport", JSUndefined) :: params) "port")
    with (prop params "port").
  change (prop (("transport", JSUndefined) :: params) "transportMode")
    with (prop params "transportMode").
  change (prop (("transport", JSUndefined) :: params) "transport")
    with JSUndefined.
  destruct (at_key "name" _), (at_key "version" _), (at_key "host" _),
    (at_key "port" _), (at_key "transportMode" _),
    (at_key "transport" (_ (prop params "transport")));
    simpl; try discriminate.
  intros [= <-]. reflexivity.
Qed.

Lemma TransportMode_string_inj (m : TransportMode) (s : string) :
  JSString s = JSString (TransportMode_string m) ->
  (s = "stdio" /\ m = stdio) \/ (s = "streamable-http" /\ m = streamable_http).
Proof. intros [= ->]. destruct m; simpl; auto. Qed.

(** What the validator returns for a handle of the other variant. *)
Lemma mismatch_Valid (params : JSObject) (cfg : BaseMCPConfig) :
  BaseMCPConfigSchema params = Valid cfg ->
  ((exists h, prop params "transport" = JSStdioTransport h)
   /\ prop params "transportMode" = JSString "streamable-http")
  \/ ((exists h, prop params "transport" = JSHttpTransport h)
      /\ (prop params "transportMode" = JSString "stdio"
          \/ prop params "transportMode" = JSUndefined)) ->
  (cfg_transportMode cfg = streamable_http
   /\ (exists h, cfg_transport cfg = Some (StdioTransport h))
   /\ prop params "transportMode" = JSString "streamable-http")
  \/ (cfg_transportMode cfg = stdio
      /\ (exists h, cfg_transport cfg = Some (HttpTransport h))
      /\ prop params "transportMode" <> JSString "streamable-http").
Proof.
  intros E M.
  pose proof (BaseMCPConfigSchema_spec params) as S. rewrite E in S.
  destruct S as (_ & _ & _ & _ & Hm & Ht).
  destruct M as [[[h Eh] Em]|[[h Eh] Em]]; rewrite Eh in Ht;
    destruct Ht as [[[=] _]|[(h' & [=] & Et)|(h' & [=] & Et)]]; subst h'.
  - left. rewrite Em in Hm. destruct Hm as [[[=] _]|Hm].
    apply TransportMode_string_inj in Hm as [[[=] _]|[_ ->]]. eauto.
  - right. destruct Em as [Em|Em]; rewrite Em in *.
    + destruct Hm as [[[=] _]|Hm].
      apply TransportMode_string_inj in Hm as [[_ ->]|[[=] _]].
      repeat split; eauto; discriminate.
    + destruct Hm as [[_ ->]|[=]]. repeat split; eauto; discriminate.
Qed.

(** C3. A configuration that is otherwise within bounds and supplies a
    transport handle of the other variant than the declared mode is
    accepted.  The handle is ignored: the server is the one built when no
    handle is supplied.  In mode "streamable-http" its HTTP transport is a
    fresh one without session-identifier generator, in mode "stdio" its
    transport is a fresh pipe transport. *)
Theorem C3_mismatched_handle_fallback (cls : ServerClass) (params : JSObject)
    (fresh : nat) :
  name_within_bounds (prop params "name") ->
  version_within_bounds (prop params "version") ->
  host_within_bounds (prop params "host") ->
  port_within_bounds (prop params "port") ->
  ((exists h, prop params "transport" = JSStdioTransport h)
   /\ prop params "transportMode" = JSString "streamable-http")
  \/ ((exists h, prop params "transport" = JSHttpTransport h)
      /\ (prop params "transportMode" = JSString "stdio"
          \/ prop params "transportMode" = JSUndefined)) ->
  exists this,
    new cls params fresh = Return this
    /\ new cls (without_transport params) fresh = Return this
    /\ _transport this = None
    /\ match transportMode this with
       | streamable_http =>
           prop params "transportMode" = JSString "streamable-http"
           /\ getHTTPTransporter this
              = Some {| http_ref := fresh; sessionIdGenerator := None |}
           /\ getStdioTransporter this = None
       | stdio =>
           prop params "transportMode" <> JSString "streamable-http"
           /\ getStdioTransporter this = Some {| stdio_ref := fresh |}
           /\ getHTTPTransporter this = None
       end.
Proof.
  intros Bn Bv Bh Bp M.
  destruct (within_bounds_Valid params Bn Bv Bh Bp) as [cfg E].
  { unfold transportMode_recognized. destruct M as [[_ ->]|[_ [->| ->]]]; auto. }
  { unfold transport_recognized. destruct M as [[[h ->] _]|[[h ->] _]]; eauto. }
  exists (constructed cls cfg fresh).
  split; [apply new_Valid, E|].
  rewrite (new_Valid _ _ _ _ (without_transport_Valid params cfg E)).
  unfold getHTTPTransporter, getStdioTransporter, constructed,
    selected_http, selected_stdio; simpl.
  destruct (mismatch_Valid params cfg E M)
    as [(-> & [h ->] & Em)|(-> & [h ->] & Em)]; repeat split; assumption.
Qed.

(** ** The tool registry *)

Section Registry.

Context {runtime : Builtins}.

Lemma callTool_registered (name : string) (tool : RegisteredTool)
    (args : JSObject) (this : BaseMCPServer) :
  _registeredTools this !! name = Some tool ->
  callTool name args this = runTool tool args this.
Proof. intros H. unfold callTool. rewrite H. reflexivity. Qed.

(** C5. Registering a tool under a name that the registry already holds
    fails with [DuplicateNameError] and leaves the server as it was; so does
    the second of two registrations under one name.  Two registrations under
    distinct names that the registry does not hold both succeed, and
    afterwards a call to either name runs the tool registered under it; the
    other entries of the registry are unchanged. *)
Theorem C5_duplicate_and_distinct_names (this : BaseMCPServer) :
  (forall name cb config,
      is_Some (_registeredTools this !! name) ->
      registerToolHelper name cb config this
      = (Throw (DuplicateNameError name), this))
  /\ (forall name cb1 config1 cb2 config2,
         _registeredTools this !! name = None ->
         exists s1,
           registerToolHelper name cb1 config1 this = (Return tt, s1)
           /\ registerToolHelper name cb2 config2 s1
              = (Throw (DuplicateNameError name), s1))
  /\ (forall n1 n2 cb1 config1 cb2 config2,
         n1 <> n2 ->
         _registeredTools this !! n1 = None ->
         _registeredTools this !! n2 = None ->
         exists s1 s2,
           registerToolHelper n1 cb1 config1 this = (Return tt, s1)
           /\ registerToolHelper n2 cb2 config2 s1 = (Return tt, s2)
           /\ (forall args,
                  callTool n1 args s2
                  = runTool {| callback := cb1; tool_config := config1 |} args s2)
           /\ (forall args,
                  callTool n2 args s2
                  = runTool {| callback := cb2; tool_config := config2 |} args s2)
           /\ (forall n, n <> n1 -> n <> n2 ->
                  _registeredTools s2 !! n = _registeredTools this !! n)).
Proof.
  unfold registerToolHelper. split; [|split].
  - intros name cb config H. apply registerTool_taken, H.
  - intros name cb1 config1 cb2 config2 H.
    eexists. split; [apply registerTool_fresh, H|].
    apply registerTool_taken. simpl. rewrite lookup_insert_eq. eauto.
  - intros n1 n2 cb1 config1 cb2 config2 Hne H1 H2.
    eexists. eexists. split; [apply registerTool_fresh, H1|].
    split.
    { apply registerTool_fresh. simpl.
      rewrite lookup_insert_ne by congruence. exact H2. }
    split; [|split].
    + intros args. apply callTool_registered. simpl.
      rewrite lookup_insert_ne by congruence. apply lookup_insert_eq.
    + intros args. apply callTool_registered. simpl. apply lookup_insert_eq.
    + intros n N1 N2. simpl.
      rewrite !lookup_insert_ne by congruence. reflexivity.
Qed.

(** C6. When the handler [registerCustomGreeting] runs in a call to the tool
    it is registered under, and the name "custom_greet" is fresh, the call
    returns and the registry afterwards is the registry before with the new
    tool added under "custom_greet": every tool registered before is still
    there, unchanged, and nothing else of the server is modified. *)
Theorem C6_registration_inside_handler (this : BaseMCPServer) (name : string)
    (config : ToolConfig unit) (args : JSObject) :
  _registeredTools this !! name
  = Some {| callback := this_registerCustomGreeting; tool_config := config |} ->
  inputSchema config args = Valid tt ->
  _registeredTools this !! "custom_greet" = None ->
  exists this',
    callTool name args this = (Return custom_greeting_registered, this')
    /\ _registeredTools this'
       = <["custom_greet" :=
             {| callback := this_customGreet; tool_config := custom_greet_config |}]>
           (_registeredTools this)
    /\ _registeredTools this' !! "custom_greet"
       = Some {| callback := this_customGreet; tool_config := custom_greet_config |}
    /\ (forall n tool, _registeredTools this !! n = Some tool ->
                       _registeredTools this' !! n = Some tool)
    /\ (forall n, n <> "custom_greet" ->
                  _registeredTools this' !! n = _registeredTools this !! n)
    /\ _registeredResources this' = _registeredResources this
    /\ _transport this' = _transport this
    /\ same_state this this'.
Proof.
  intros Hreg Hin Hfresh.
  exists (set_registeredTools
            (insert "custom_greet"
               {| callback := this_customGreet; tool_config := custom_greet_config |})
            this).
  split.
  { rewrite (callTool_registered _ _ _ _ Hreg). unfold runTool; simpl.
    rewrite Hin. simpl.
    unfold registerCustomGreeting, bind, registerToolHelper.
    rewrite (registerTool_fresh _ _ _ _ Hfresh). reflexivity. }
  simpl. split; [reflexivity|]. split; [apply lookup_insert_eq|].
  split.
  { intros n tool H. rewrite lookup_insert_ne; [exact H | congruence]. }
  split.
  { intros n N. apply lookup_insert_ne. congruence. }
  unfold same_state; simpl. tauto.
Qed.

End Registry.

(** ** The example tools *)

Lemma isFinite_not_nan (n : float) :
  Number_isFinite n = true -> (n =? n)%float = true.
Proof.
  unfold Number_isFinite. rewrite FloatAxioms.eqb_spec. unfold SFeqb.
  destruct (Prim2SF n) as [s|s| |s m e]; simpl; try discriminate; intros _.
  - reflexivity.
  - destruct s; rewrite Z.compare_refl, Pos.compare_cont_refl; reflexivity.
Qed.


Section Tools.

Context {runtime : Builtins}.

Lemma greet_inputSchema_accepts (who : string) :
  2 <= String.length who <= 100 ->
  inputSchema greet_config [("name", JSString who)] = Valid {| greet_name := who |}.
Proof.
  intros B. simpl.
  pose proof (string_field "name" 2 100 (JSString who)) as H.
  destruct (at_key "name" _) as [s|issues].
  - destruct H as [[= <-] _]. reflexivity.
  - exfalso. apply H. eauto.
Qed.

(** C7, as amended. On every configuration that the validator accepts,
    construction of the greetings server succeeds, and a call of its tool
    "greet" with input [{name: who}], [who] of 2 to 100 characters, returns
    a result whose structured payload has the text
    "Hello, <who>! Welcome to <name> version <version>." for the validated
    name and version; the server is unchanged. *)
Theorem C7_greet_text (params : JSObject) (fresh : nat) (cfg : BaseMCPConfig)
    (who : string) :
  BaseMCPConfigSchema params = Valid cfg ->
  2 <= String.length who <= 100 ->
  exists this result payload,
    new GreetingsMCP params fresh = Return this
    /\ callTool "greet" [("name", JSString who)] this = (Return result, this)
    /\ structuredContent result = Some payload
    /\ prop payload "text"
       = JSString ("Hello, " +:+ who +:+ "! Welcome to " +:+ cfg_name cfg
                     +:+ " version " +:+ cfg_version cfg +:+ ".").
Proof.
  intros E B.
  exists (constructed GreetingsMCP cfg fresh).
  eexists. eexists.
  split; [apply new_Valid, E|].
  split.
  { rewrite (callTool_registered "greet"
               {| callback := this_greet; tool_config := greet_config |}).
    - unfold runTool. cbn [tool_config callback Args].
      rewrite (greet_inputSchema_accepts who B). reflexivity.
    - simpl. rewrite lookup_insert_ne by discriminate. apply lookup_insert_eq. }
  split; reflexivity.
Qed.

Lemma calculate_inputSchema_accepts (op : string) (x y : float) :
  In op ["add"; "subtract"; "multiply"; "divide"] ->
  (x =? x)%float = true -> (y =? y)%float = true ->
  inputSchema calculate_config
    [("operation", JSString op); ("a", JSNumber x); ("b", JSNumber y)]
  = Valid {| operation := op; a := x; b := y |}.
Proof.
  intros Hop Hx Hy. simpl. unfold z.number. rewrite Hx, Hy.
  destruct Hop as [<-|[<-|[<-|[<-|[]]]]]; reflexivity.
Qed.

(** C8. The handler [calculate] on [{operation: "divide", a: 10, b: 0}]
    returns, without throwing and without touching the server, the
    division-by-zero payload: [structuredContent.error] is "Division by zero"
    and the text entry is "Error: Division by zero".  But the tool is
    registered with an output schema that requires [result] and
    [expression], which this payload does not have: a call of the tool
    "calculate" of a calculator server with that input does not return the
    payload, it fails at the check of the structured content, the server
    unchanged.  On every input with operation "divide" and [b] different from
    zero the handler returns the result [a / b] with the expression
    "a (division sign) b = a/b", and the call of the tool returns it when the
    quotient is finite. *)
Theorem C8_calculate_divide :
  (forall this,
      invoke this_calculate {| operation := "divide"; a := 10; b := 0 |} this
      = (Return division_by_zero, this))
  /\ outputSchema calculate_config (payload division_by_zero)
     = Invalid [{| code := invalid_type; path := ["result"] |};
                {| code := invalid_type; path := ["expression"] |}]
  /\ (forall params fresh this,
         new CalculatorMCP params fresh = Return this ->
         tools_call "calculate"
           [("operation", JSString "divide"); ("a", JSNumber 10); ("b", JSNumber 0)]
           this
         = (Throw (InvalidStructuredContent "calculate"
                     [{| code := invalid_type; path := ["result"] |};
                      {| code := invalid_type; path := ["expression"] |}]),
            this))
  /\ (forall x y this,
         (y =? 0)%float = false ->
         invoke this_calculate {| operation := "divide"; a := x; b := y |} this
         = (Return
              {| content :=
                   [ {| type := "text";
                        text := Number_toString x +:+ " " +:+ division_sign +:+ " "
                                  +:+ Number_toString y +:+ " = "
                                  +:+ Number_toString (x / y) |} ];
                 structuredContent :=
                   Some [("result", JSNumber (x / y));
                         ("expression",
                          JSString (Number_toString x +:+ " " +:+ division_sign
                                      +:+ " " +:+ Number_toString y +:+ " = "
                                      +:+ Number_toString (x / y)))] |},
            this))
  /\ (forall params fresh this x y,
         new CalculatorMCP params fresh = Return this ->
         (x =? x)%float = true -> (y =? y)%float = true ->
         (y =? 0)%float = false ->
         Number_isFinite (x / y) = true ->
         exists result,
           tools_call "calculate"
             [("operation", JSString "divide"); ("a", JSNumber x); ("b", JSNumber y)]
             this
           = (Return result, this)
           /\ prop (payload result) "result" = JSNumber (x / y)).
Proof.
  assert (D : forall x y this,
             (y =? 0)%float = false ->
             invoke this_calculate {| operation := "divide"; a := x; b := y |} this
             = (Return
                  (calculate_ok (x / y)
                     (Number_toString x +:+ " " +:+ division_sign +:+ " "
                        +:+ Number_toString y +:+ " = " +:+ Number_toString (x / y))),
                this)).
  { intros x y this H. simpl. unfold ret, calculate. simpl.
    rewrite H. reflexivity. }
  assert (L : forall cfg fresh,
             _registeredTools (constructed CalculatorMCP cfg fresh) !! "calculate"
             = Some {| callback := this_calculate; tool_config := calculate_config |}).
  { intros cfg fresh. simpl.
    rewrite lookup_insert_ne by discriminate. apply lookup_insert_eq. }
  split; [|split; [|split; [|split]]].
  - intros this. reflexivity.
  - reflexivity.
  - intros params fresh this H.
    destruct (new_Return_constructed _ _ _ _ H) as (cfg & _ & ->).
    unfold tools_call. rewrite (L cfg fresh).
    unfold runTool. cbn [tool_config callback Args].
    rewrite calculate_inputSchema_accepts; [reflexivity | simpl; tauto | | ];
      reflexivity.
  - intros x y this H. exact (D x y this H).
  - intros params fresh this x y H Hx Hy H0 Hf.
    destruct (new_Return_constructed _ _ _ _ H) as (cfg & _ & ->).
    eexists. unfold tools_call. rewrite (L cfg fresh).
    unfold runTool. cbn [tool_config callback Args].
    rewrite calculate_inputSchema_accepts; [| simpl; tauto | assumption..].
    rewrite (D x y _ H0).
    unfold validateStructuredContent, calculate_ok, payload; simpl.
    unfold z.number. rewrite (isFinite_not_nan _ Hf). simpl.
    split; reflexivity.
Qed.

End Tools.

(** ** Scenarios *)

Example parse_stdio_params : BaseMCPConfigSchema stdio_params = Valid stdio_config.
Proof. reflexivity. Qed.

Example parse_defaults :
  BaseMCPConfigSchema
    [("name", JSString "Greetings MCP"); ("version", JSString "1.0.0")]
  = Valid stdio_config.
Proof. reflexivity. Qed.

Example parse_scenario_params :
  BaseMCPConfigSchema scenario_params
  = Invalid [{| code := too_small; path := ["name"] |}].
Proof. reflexivity. Qed.

Example parse_collects_issues :
  BaseMCPConfigSchema
    [("name", JSString "T"); ("version", JSNumber 1); ("port", JSNumber 70000);
     ("transportMode", JSString "http")]
  = Invalid [{| code := too_small; path := ["name"] |};
             {| code := invalid_type; path := ["version"] |};
             {| code := too_big; path := ["port"] |};
             {| code := invalid_enum_value; path := ["transportMode"] |}].
Proof. reflexivity. Qed.

Example isInteger_examples :
  Number_isInteger 3000 = true /\ Number_isInteger 3000.5 = false
  /\ Number_isInteger 0.5 = false /\ Number_isInteger 0x1p60 = true
  /\ Number_isInteger infinity = false.
Proof. vm_compute. auto. Qed.

Example calculate_examples :
  let run op x y :=
    @calculate example_runtime {| operation := op; a := x; b := y |} in
  (run "add" 2 3 = calculate_ok 5 "2 + 3 = 5"
   /\ run "subtract" 2 3 = calculate_ok (-1) "2 - 3 = -1"
   /\ run "divide" 10 2
      = calculate_ok 5 ("10 " +:+ division_sign +:+ " 2 = 5")
   /\ run "divide" 10 (-0) = division_by_zero
   /\ run "modulo" 10 3 = calculate_error "Unknown operation")%float.
Proof. vm_compute. repeat split. Qed.

(** The payloads against the output schemas that the tools declare: the
    greeting and a quotient conform, the division-by-zero payload has neither
    [result] nor [expression]. *)
Example payloads_and_outputSchema :
  outputSchema greet_config [("text", JSString "Hello")]
  = Valid [("text", JSString "Hello")]
  /\ outputSchema calculate_config
       [("result", JSNumber 5); ("expression", JSString "10 / 2 = 5")]
     = Valid [("result", JSNumber 5); ("expression", JSString "10 / 2 = 5")]
  /\ outputSchema calculate_config [("error", JSString "Division by zero")]
     = Invalid [{| code := invalid_type; path := ["result"] |};
                {| code := invalid_type; path := ["expression"] |}].
Proof. repeat split. Qed.

Example greet_after_construction :
  match new GreetingsMCP stdio_params 0 with
  | Return this =>
      fst (@callTool example_runtime "greet" [("name", JSString "Ada")] this)
      = Return
          {| content :=
               [ {| type := "text";
                    text := "Hello, Ada! Welcome to Greetings MCP version 1.0.0." |} ];
             structuredContent :=
               Some [("text",
                      JSString "Hello, Ada! Welcome to Greetings MCP version 1.0.0.")] |}
  | Throw _ => False
  end.
Proof. vm_compute. reflexivity. Qed.

(** The whole call: a greeting is returned, the division by zero is not. *)
Example tools_call_examples :
  match new GreetingsMCP stdio_params 0, new CalculatorMCP stdio_params 0 with
  | Return greetings, Return calculator =>
      fst (@tools_call example_runtime "greet" [("name", JSString "Ada")] greetings)
      = Return (greet greetings {| greet_name := "Ada" |})
      /\ fst (@tools_call example_runtime "calculate"
                [("operation", JSString "divide"); ("a", JSNumber 10);
                 ("b", JSNumber 4)] calculator)
         = Return (calculate_ok 2.5 ("10 " +:+ division_sign +:+ " 4 = 2.5"))
      /\ fst (@tools_call example_runtime "calculate"
                [("operation", JSString "divide"); ("a", JSNumber 10);
                 ("b", JSNumber 0)] calculator)
         = Throw (InvalidStructuredContent "calculate"
                    [{| code := invalid_type; path := ["result"] |};
                     {| code := invalid_type; path := ["expression"] |}])
  | _, _ => False
  end.
Proof. vm_compute. repeat split. Qed.

(** [Number::toString] on numbers of each layout. *)
Example Number_toString_examples :
  map example_Number_toString
    [2.5; 3000.5; 0.5; (-0); 100; 0x1p70; 0x1p-20; 0x1p-1074; nan;
     neg_infinity; 123456789.125; (-72)]%float
  = ["2.5"; "3000.5"; "0.5"; "0"; "100"; "1.1805916207174113e+21";
     "9.5367431640625e-7"; "5e-324"; "NaN"; "-Infinity"; "123456789.125"; "-72"].
Proof. vm_compute. reflexivity. Qed.

Example greet_rejects_short_name :
  match new GreetingsMCP stdio_params 0 with
  | Return this =>
      fst (@callTool example_runtime "greet" [("name", JSString "A")] this)
      = Throw (ZodError [{| code := too_small; path := ["name"] |}])
  | Throw _ => False
  end.
Proof. vm_compute. reflexivity. Qed.

Example custom_greeting_twice :
  match new GreetingsMCP stdio_params 0 with
  | Return this =>
      let '(r1, s1) := @callTool example_runtime "regiter_custom_greeting" [] this in
      let '(r2, s2) := @callTool example_runtime "regiter_custom_greeting" [] s1 in
      r1 = Return custom_greeting_registered
      /\ r2 = Throw (HandlerError (DuplicateNameError "custom_greet"))
      /\ fst (@callTool example_runtime "custom_greet"
                [("name", JSString "Ada"); ("message", JSString "Good day.")] s2)
         = Return (customGreet {| custom_name := "Ada"; custom_message := "Good day." |})
  | Throw _ => False
  end.
Proof. vm_compute. repeat split. Qed.

Example start_logs :
  match new GreetingsMCP http_params 0 with
  | Return this =>
      fst (@start example_runtime this)
      = ["Starting Greetings MCP v1.0.0 on http://localhost:3000"]
  | Throw _ => False
  end.
Proof. vm_compute. reflexivity. Qed.

(** ** The theorems at concrete inputs *)

(** C1 at a configuration that gives a name and a version only (accepted,
    with the three defaults) and at the scenario's one-character name
    (rejected). *)
Lemma C1_witness :
  (exists cfg this,
     BaseMCPConfigSchema minimal_params = Valid cfg
     /\ cfg_host cfg = "localhost" /\ cfg_port cfg = 3000%float
     /\ cfg_transportMode cfg = stdio
     /\ new GreetingsMCP minimal_params 0 = Return this
     /\ host this = "localhost" /\ port this = 3000%float
     /\ transportMode this = stdio)
  /\ exists issues,
       BaseMCPConfigSchema scenario_params = Invalid issues
       /\ forall cls fresh, new cls scenario_params fresh = Throw (ZodError issues).
Proof.
  split.
  - destruct (C1_validated_configuration_bounds minimal_params)
      as (H1 & _ & _ & H4).
    destruct H4 as (cfg & E & _).
    + exists "Greetings MCP". split; [reflexivity | simpl; lia].
    + exists "1.0.0". split; [reflexivity | simpl; lia].
    + left. reflexivity.
    + left. reflexivity.
    + left. reflexivity.
    + left. reflexivity.
    + destruct (H1 cfg E) as (_ & _ & _ & _ & _ & Dh & Dp & Dm & N).
      destruct (N GreetingsMCP 0) as (this & En & _ & _ & Eh & Ep & Em).
      exists cfg, this.
      rewrite Eh, Ep, Em, (Dh eq_refl), (Dp eq_refl), (Dm eq_refl).
      repeat split; assumption.
  - destruct (C1_validated_configuration_bounds scenario_params)
      as (_ & _ & H & _).
    apply H. left. intros (s & E & B).
    injection E as <-. simpl in B. lia.
Defined.

(** C2 at the stdio server of std-app.ts, after a tool call that registers
    a tool, a start and a read of the transport. *)
Lemma C2_witness :
  new GreetingsMCP stdio_params 1 = Return (constructed GreetingsMCP stdio_config 1)
  /\ getHTTPTransporter
       (@serve_all example_runtime
          [CallTool "regiter_custom_greeting" []; Start; GetTransporter]
          (constructed GreetingsMCP stdio_config 1)) = None
  /\ is_Some
       (getStdioTransporter
          (@serve_all example_runtime
             [CallTool "regiter_custom_greeting" []; Start; GetTransporter]
             (constructed GreetingsMCP stdio_config 1))).
Proof.
  assert (H : new GreetingsMCP stdio_params 1
              = Return (constructed GreetingsMCP stdio_config 1))
    by (vm_compute; reflexivity).
  split; [exact H|].
  apply (@C2_one_live_transport example_runtime _ _ _ _
           [CallTool "regiter_custom_greeting" []; Start; GetTransporter] H).
  reflexivity.
Defined.

(** C3 at an HTTP-mode configuration that supplies a pipe transport. *)
Lemma C3_witness :
  exists this,
    new GreetingsMCP mismatched_params 1 = Return this
    /\ getHTTPTransporter this
       = Some {| http_ref := 1; sessionIdGenerator := None |}
    /\ getStdioTransporter this = None.
Proof.
  destruct (C3_mismatched_handle_fallback GreetingsMCP mismatched_params 1)
    as (this & E & _ & _ & M).
  - exists "Greetings MCP". split; [reflexivity | simpl; lia].
  - exists "1.0.0". split; [reflexivity | simpl; lia].
  - left. reflexivity.
  - left. reflexivity.
  - left. split; [eexists|]; reflexivity.
  - exists this. split; [exact E|].
    destruct (transportMode this); destruct M as (Em & M1 & M2).
    + split; assumption.
    + exfalso. apply Em. reflexivity.
Defined.

(** C4 at the configuration of std-app.ts. *)
Lemma C4_witness :
  exists this,
    new GreetingsMCP stdio_params 0 = Return this
    /\ getMetadata this
       = {| meta_name := "Greetings MCP"; meta_version := "1.0.0";
            meta_transportMode := stdio; meta_host := "localhost";
            meta_port := 3000 |}.
Proof.
  exact (C4_getMetadata_roundtrip GreetingsMCP stdio_params 0 stdio_config eq_refl).
Defined.

(** C5 on a calculator server: two fresh names, then one of them again. *)
Lemma C5_witness :
  exists s1 s2,
    registerToolHelper "greet" this_greet greet_config
      (constructed CalculatorMCP stdio_config 0) = (Return tt, s1)
    /\ registerToolHelper "custom_greet" this_customGreet custom_greet_config s1
       = (Return tt, s2)
    /\ registerToolHelper "greet" this_customGreet custom_greet_config s2
       = (Throw (DuplicateNameError "greet"), s2).
Proof.
  destruct (@C5_duplicate_and_distinct_names example_runtime
              (constructed CalculatorMCP stdio_config 0)) as (_ & _ & H).
  destruct (H "greet" "custom_greet" this_greet greet_config
              this_customGreet custom_greet_config)
    as (s1 & s2 & E1 & E2 & C1 & _); [discriminate | reflexivity | reflexivity |].
  exists s1, s2. split; [exact E1|]. split; [exact E2|].
  destruct (@C5_duplicate_and_distinct_names example_runtime s2) as (D & _).
  apply D.
  specialize (C1 []). unfold callTool in C1.
  destruct (_registeredTools s2 !! "greet"); [eauto | discriminate].
Defined.

(** C6 on a freshly constructed greetings server. *)
Lemma C6_witness :
  exists this',
    @callTool example_runtime "regiter_custom_greeting" []
      (constructed GreetingsMCP stdio_config 0)
    = (Return custom_greeting_registered, this')
    /\ _registeredTools this' !! "greet"
       = Some {| callback := this_greet; tool_config := greet_config |}
    /\ _registeredTools this' !! "custom_greet"
       = Some {| callback := this_customGreet; tool_config := custom_greet_config |}.
Proof.
  destruct (@C6_registration_inside_handler example_runtime
              (constructed GreetingsMCP stdio_config 0)
              "regiter_custom_greeting" register_custom_greeting_config [])
    as (this' & E & _ & Hnew & Hold & _);
    [reflexivity | reflexivity | reflexivity |].
  exists this'. split; [exact E|]. split; [|exact Hnew].
  apply Hold. reflexivity.
Defined.

(** C7, as stated, fails: the name "T" of the scenario is shorter than the
    two characters that the schema requires, so construction throws. *)
Lemma C7_scenario_rejected :
  new GreetingsMCP scenario_params 0
  = Throw (ZodError [{| code := too_small; path := ["name"] |}])
  /\ ~ exists this, new GreetingsMCP scenario_params 0 = Return this.
Proof.
  split; [reflexivity|]. intros [this H]. discriminate H.
Qed.

(** C7, as amended, at the scenario with a two-character name. *)
Lemma C7_witness :
  exists this result payload,
    new GreetingsMCP T1_params 0 = Return this
    /\ @callTool example_runtime "greet" [("name", JSString "Ada")] this
       = (Return result, this)
    /\ structuredContent result = Some payload
    /\ prop payload "text" = JSString "Hello, Ada! Welcome to T1 version 1.0.".
Proof.
  apply (@C7_greet_text example_runtime T1_params 0 T1_config "Ada").
  - reflexivity.
  - simpl. lia.
Defined.

(** C8 at 10 / 4. *)
Lemma C8_witness :
  @invoke example_runtime this_calculate
    {| operation := "divide"; a := 10; b := 4 |}
    (constructed CalculatorMCP stdio_config 0)
  = (Return
       {| content :=
            [ {| type := "text";
                 text := "10 " +:+ division_sign +:+ " 4 = 2.5" |} ];
          structuredContent :=
            Some [("result", JSNumber 2.5);
                  ("expression",
                   JSString ("10 " +:+ division_sign +:+ " 4 = 2.5"))] |},
     constructed CalculatorMCP stdio_config 0).
Proof.
  destruct (@C8_calculate_divide example_runtime) as (_ & _ & _ & H & _).
  rewrite (H 10%float 4%float _ eq_refl). vm_compute. reflexivity.
Defined.

(** C9, as stated, fails: 3000.5 is not an integer, and the configuration
    that carries it as port is accepted. *)
Lemma C9_fractional_port_accepted :
  prop fractional_port_params "port" = JSNumber 3000.5
  /\ Number_isInteger 3000.5 = false
  /\ (exists this,
        new GreetingsMCP fractional_port_params 0 = Return this
        /\ port this = 3000.5%float)
  /\ ~ exists issues,
         new GreetingsMCP fractional_port_params 0 = Throw (ZodError issues).
Proof.
  split; [reflexivity|]. split; [reflexivity|].
  assert (E : new GreetingsMCP fractional_port_params 0
              = Return (constructed GreetingsMCP
                          {| cfg_name := "Greetings MCP"; cfg_version := "1.0.0";
                             cfg_host := "localhost"; cfg_port := 3000.5;
                             cfg_transportMode := stdio; cfg_transport := None |} 0))
    by (apply new_Valid; reflexivity).
  split.
  - eexists. split; [exact E | reflexivity].
  - intros [issues H]. rewrite E in H. discriminate H.
Qed.

(** C9, as amended, at port 70000. *)
Lemma C9_witness :
  exists issues,
    new GreetingsMCP
      [("name", JSString "Greetings MCP"); ("version", JSString "1.0.0");
       ("port", JSNumber 70000)] 0
    = Throw (ZodError issues).
Proof.
  apply C9_port_outside_range_rejected.
  intros [E|(n & E & B1 & B2)].
  - discriminate E.
  - injection E as <-. discriminate B2.
Defined.

(** C10 at the one-character host "a". *)
Lemma C10_witness :
  exists issues,
    new GreetingsMCP
      [("name", JSString "Greetings MCP"); ("version", JSString "1.0.0");
       ("host", JSString "a")] 0
    = Throw (ZodError issues).
Proof.
  apply (C10_host_length_rejected GreetingsMCP _ 0 "a").
  - reflexivity.
  - left. simpl. lia.
Defined.

(** * Further properties of the code *)

(** ** Construction and the transport handles *)

(** X1. Construction succeeds exactly on the configurations whose name,
    version, host, port, transport mode and transport handle are each within
    the bounds of the schema; on every other configuration it throws a
    [ZodError], and it never throws anything else: the registration hooks of
    the example classes do not fail. *)
Theorem X1_construction_iff_within_bounds (cls : ServerClass)
    (params : JSObject) (fresh : nat) :
  ((exists this, new cls params fresh = Return this) <->
   name_within_bounds (prop params "name")
   /\ version_within_bounds (prop params "version")
   /\ host_within_bounds (prop params "host")
   /\ port_within_bounds (prop params "port")
   /\ transportMode_recognized (prop params "transportMode")
   /\ transport_recognized (prop params "transport"))
  /\ (forall e, new cls params fresh = Throw e ->
        exists issues, e = ZodError issues
                       /\ BaseMCPConfigSchema params = Invalid issues).
Proof.
  split; [split|].
  - intros [this H]. destruct (new_Return_inv _ _ _ _ H) as [cfg E].
    apply (Valid_within_bounds params cfg E).
  - intros (Bn & Bv & Bh & Bp & Bm & Bt).
    destruct (within_bounds_Valid params Bn Bv Bh Bp Bm Bt) as [cfg E].
    exists (constructed cls cfg fresh). apply new_Valid, E.
  - intros e H. destruct (BaseMCPConfigSchema params) as [cfg|issues] eqn:E.
    + rewrite (new_Valid _ _ _ _ E) in H. discriminate H.
    + rewrite (new_Invalid _ _ _ _ E) in H. injection H as <-. eauto.
Qed.

(** What the validator returns for a handle of the variant of the mode. *)
Lemma match_Valid (params : JSObject) (cfg : BaseMCPConfig) :
  BaseMCPConfigSchema params = Valid cfg ->
  (forall h, prop params "transport" = JSHttpTransport h ->
             prop params "transportMode" = JSString "streamable-http" ->
             cfg_transportMode cfg = streamable_http
             /\ cfg_transport cfg = Some (HttpTransport h))
  /\ (forall h, prop params "transport" = JSStdioTransport h ->
                prop params "transportMode" = JSString "stdio"
                \/ prop params "transportMode" = JSUndefined ->
                cfg_transportMode cfg = stdio
                /\ cfg_transport cfg = Some (StdioTransport h)).
Proof.
  intros E.
  pose proof (BaseMCPConfigSchema_spec params) as S. rewrite E in S.
  destruct S as (_ & _ & _ & _ & Hm & Ht).
  split; intros h Eh Em; rewrite Eh in Ht;
    destruct Ht as [[[=] _]|[(h' & [=] & Et)|(h' & [=] & Et)]]; subst h'.
  - rewrite Em in Hm. destruct Hm as [[[=] _]|Hm].
    apply TransportMode_string_inj in Hm as [[[=] _]|[_ ->]]. auto.
  - destruct Em as [Em|Em]; rewrite Em in Hm.
    + destruct Hm as [[[=] _]|Hm].
      apply TransportMode_string_inj in Hm as [[_ ->]|[[=] _]]. auto.
    + destruct Hm as [[_ ->]|[=]]. auto.
Qed.

(** X2. A configuration that is otherwise within bounds and supplies a
    transport handle of the variant of its mode is accepted, and the server
    adopts that very handle, with its identity and its session-identifier
    generator: [getTransporter()] returns it, the accessor of the other
    variant is absent, and no transport is created (the server does not
    depend on the identity that a new object would receive). *)
Theorem X2_matching_handle_adopted (cls : ServerClass) (params : JSObject)
    (fresh : nat) :
  name_within_bounds (prop params "name") ->
  version_within_bounds (prop params "version") ->
  host_within_bounds (prop params "host") ->
  port_within_bounds (prop params "port") ->
  (exists h, prop params "transport" = JSHttpTransport h
             /\ prop params "transportMode" = JSString "streamable-http")
  \/ (exists h, prop params "transport" = JSStdioTransport h
                /\ (prop params "transportMode" = JSString "stdio"
                    \/ prop params "transportMode" = JSUndefined)) ->
  exists this,
    new cls params fresh = Return this
    /\ (forall fresh', new cls params fresh' = Return this)
    /\ match prop params "transport" with
       | JSHttpTransport h =>
           getTransporter this = Return (HttpTransport h)
           /\ getHTTPTransporter this = Some h
           /\ getStdioTransporter this = None
       | JSStdioTransport h =>
           getTransporter this = Return (StdioTransport h)
           /\ getStdioTransporter this = Some h
           /\ getHTTPTransporter this = None
       | _ => False
       end.
Proof.
  intros Bn Bv Bh Bp M.
  destruct (within_bounds_Valid params Bn Bv Bh Bp) as [cfg E].
  { unfold transportMode_recognized.
    destruct M as [(h & _ & ->)|(h & _ & [->| ->])]; auto. }
  { unfold transport_recognized.
    destruct M as [(h & -> & _)|(h & -> & _)]; eauto. }
  destruct (match_Valid params cfg E) as [Mh Ms].
  exists (constructed cls cfg fresh).
  split; [apply new_Valid, E|].
  destruct M as [(h & Eh & Em)|(h & Eh & Em)]; rewrite Eh.
  - destruct (Mh h Eh Em) as [Ec Et]. split.
    + intros fresh'. rewrite (new_Valid _ _ fresh' _ E).
      unfold constructed, selected_http, selected_stdio. rewrite Ec, Et.
      reflexivity.
    + unfold getTransporter, getHTTPTransporter, getStdioTransporter,
        constructed, selected_http, selected_stdio; simpl.
      rewrite Ec, Et. auto.
  - destruct (Ms h Eh Em) as [Ec Et]. split.
    + intros fresh'. rewrite (new_Valid _ _ fresh' _ E).
      unfold constructed, selected_http, selected_stdio. rewrite Ec, Et.
      reflexivity.
    + unfold getTransporter, getHTTPTransporter, getStdioTransporter,
        constructed, selected_http, selected_stdio; simpl.
      rewrite Ec, Et. auto.
Qed.

Lemma constructed_getTransporter (cls : ServerClass) (cfg : BaseMCPConfig)
    (fresh : nat) :
  match cfg_transportMode cfg with
  | streamable_http =>
      exists t, selected_http cfg fresh = Some t
                /\ getTransporter (constructed cls cfg fresh) = Return (HttpTransport t)
  | stdio =>
      exists t, selected_stdio cfg fresh = Some t
                /\ getTransporter (constructed cls cfg fresh) = Return (StdioTransport t)
  end.
Proof.
  unfold getTransporter, constructed, selected_http, selected_stdio; simpl.
  destruct (cfg_transportMode cfg); eexists; split; reflexivity.
Qed.

Lemma same_state_getTransporter (this this' : BaseMCPServer) :
  same_state this this' -> getTransporter this' = getTransporter this.
Proof.
  intros (_ & _ & _ & _ & Em & Eh & Es). unfold getTransporter.
  rewrite Em, Eh, Es. reflexivity.
Qed.

(** X3. On a constructed server, at any later time, [getTransporter()] does
    not throw: it returns the handle of the server's mode, the one that
    [getHTTPTransporter()] or [getStdioTransporter()] returned right after
    construction. *)
Theorem X3_getTransporter_never_throws {runtime : Builtins} (cls : ServerClass)
    (params : JSObject) (fresh : nat) (this : BaseMCPServer)
    (requests : list Request) :
  new cls params fresh = Return this ->
  match transportMode this with
  | streamable_http =>
      exists t, getHTTPTransporter this = Some t
                /\ getTransporter (serve_all requests this)
                   = Return (HttpTransport t)
  | stdio =>
      exists t, getStdioTransporter this = Some t
                /\ getTransporter (serve_all requests this)
                   = Return (StdioTransport t)
  end.
Proof.
  intros H. destruct (new_Return_constructed _ _ _ _ H) as (cfg & E & ->).
  rewrite (same_state_getTransporter _ _
             (serve_all_same_state requests (constructed cls cfg fresh))).
  exact (constructed_getTransporter cls cfg fresh).
Qed.

(** X4. On a constructed server [connect()] returns normally and hands the
    SDK the handle that [getTransporter()] returns; the registries, the
    configuration and the handles are untouched, so that [getTransporter()]
    still returns the same handle afterwards. *)
Theorem X4_connect_binds_selected_transport (cls : ServerClass)
    (params : JSObject) (fresh : nat) (this : BaseMCPServer) :
  new cls params fresh = Return this ->
  exists transporter this',
    getTransporter this = Return transporter
    /\ connect this = (Return tt, this')
    /\ _transport this' = Some transporter
    /\ _registeredTools this' = _registeredTools this
    /\ _registeredResources this' = _registeredResources this
    /\ same_state this this'
    /\ getTransporter this' = Return transporter.
Proof.
  intros H. destruct (new_Return_constructed _ _ _ _ H) as (cfg & E & ->).
  pose proof (constructed_getTransporter cls cfg fresh) as G.
  unfold connect, McpServer_connect.
  destruct (cfg_transportMode cfg) eqn:Em; destruct G as (t & Et & G);
    rewrite G; eexists; eexists; (split; [reflexivity|]);
    (split; [reflexivity|]); simpl;
    repeat split; unfold getTransporter; simpl; rewrite Em, Et; reflexivity.
Qed.

(** ** Requests *)

Section MoreRequests.

Context {runtime : Builtins}.

(** X5. On a constructed server [start()] logs exactly one line, naming the
    server and its version (and, in mode "streamable-http", the host and the
    port), and then does what [connect()] does, which returns normally: the
    branch of [start()] that logs nothing is not taken. *)
Theorem X5_start_logs_once_then_connects (cls : ServerClass)
    (params : JSObject) (fresh : nat) (this : BaseMCPServer) :
  new cls params fresh = Return this ->
  fst (start this)
  = [match transportMode this with
     | streamable_http =>
         "Starting " +:+ name this +:+ " v" +:+ version this +:+ " on http://"
           +:+ host this +:+ ":" +:+ Number_toString (port this)
     | stdio =>
         "Starting " +:+ name this +:+ " v" +:+ version this +:+ " in stdio mode"
     end]
  /\ snd (start this) = connect this
  /\ fst (connect this) = Return tt.
Proof.
  intros H. destruct (new_Return_constructed _ _ _ _ H) as (cfg & E & ->).
  pose proof (constructed_getTransporter cls cfg fresh) as G.
  unfold start, start_log, connect, constructed, selected_http in *; simpl.
  destruct (cfg_transportMode cfg); destruct G as (t & Et & G); rewrite G;
    repeat split.
Qed.

(** X6. [getMetadata()] of a constructed server is the validated
    configuration at any later time: no request changes the name, version,
    transport mode, host or port. *)
Theorem X6_getMetadata_is_stable (cls : ServerClass) (params : JSObject)
    (fresh : nat) (cfg : BaseMCPConfig) (this : BaseMCPServer)
    (requests : list Request) :
  BaseMCPConfigSchema params = Valid cfg ->
  new cls params fresh = Return this ->
  getMetadata (serve_all requests this)
  = {| meta_name := cfg_name cfg;
       meta_version := cfg_version cfg;
       meta_transportMode := cfg_transportMode cfg;
       meta_host := cfg_host cfg;
       meta_port := cfg_port cfg |}.
Proof.
  intros E H. rewrite (new_Valid _ _ _ _ E) in H. injection H as <-.
  destruct (serve_all_same_state requests (constructed cls cfg fresh))
    as (En & Ev & Eh & Ep & Em & _).
  unfold getMetadata. rewrite En, Ev, Eh, Ep, Em. reflexivity.
Qed.

Lemma grown_refl (this : BaseMCPServer) : grown this this.
Proof. unfold grown. auto. Qed.

Lemma grown_trans (s1 s2 s3 : BaseMCPServer) :
  grown s1 s2 -> grown s2 s3 -> grown s1 s3.
Proof.
  intros (A1 & B1 & C1) (A2 & B2 & C2). unfold grown. repeat split.
  - auto.
  - intros n N. rewrite B2, B1; auto.
  - congruence.
Qed.

Lemma invoke_grown (cb : ToolCallback) (args : Args cb) (this : BaseMCPServer) :
  grown this (snd (invoke cb args this)).
Proof.
  destruct cb; simpl; try apply grown_refl.
  unfold registerCustomGreeting, bind, registerToolHelper, registerTool.
  destruct (_registeredTools this !! "custom_greet") eqn:E; simpl;
    [apply grown_refl|].
  unfold grown; simpl. repeat split.
  - intros n tool H. rewrite lookup_insert_ne; [exact H | congruence].
  - intros n N. apply lookup_insert_ne. congruence.
Qed.

Lemma callTool_grown (name : string) (args : JSObject) (this : BaseMCPServer) :
  grown this (snd (callTool name args this)).
Proof.
  unfold callTool, runTool. destruct (_ !! _) as [tool|]; [|apply grown_refl].
  destruct (inputSchema _ _) as [validated|issues]; [|apply grown_refl].
  pose proof (invoke_grown (callback tool) validated this) as G.
  destruct (invoke _ _ this) as [[r|e] this']; exact G.
Qed.

Lemma serve_grown (r : Request) (this : BaseMCPServer) :
  grown this (serve r this).
Proof.
  destruct r; simpl; try apply grown_refl.
  - apply callTool_grown.
  - unfold connect, McpServer_connect, grown.
    destruct (getTransporter this); simpl; auto.
  - unfold connect, McpServer_connect, grown.
    destruct (getTransporter this); simpl; auto.
Qed.

(** X7. No request removes or replaces a registered tool: after any requests
    every tool that was registered is still registered with the same
    descriptor, the only name under which a tool may have appeared is
    "custom_greet", and the resources are unchanged. *)
Theorem X7_requests_only_grow_the_registry (this : BaseMCPServer)
    (requests : list Request) :
  (forall n tool, _registeredTools this !! n = Some tool ->
                  _registeredTools (serve_all requests this) !! n = Some tool)
  /\ (forall n, n <> "custom_greet" ->
                _registeredTools (serve_all requests this) !! n
                = _registeredTools this !! n)
  /\ _registeredResources (serve_all requests this) = _registeredResources this.
Proof.
  change (grown this (serve_all requests this)).
  unfold serve_all. revert this.
  induction requests as [|r rs IH]; intros this; simpl.
  - apply grown_refl.
  - eapply grown_trans; [apply serve_grown | apply IH].
Qed.

Lemma constructed_from_source (cls : ServerClass) (cfg : BaseMCPConfig)
    (fresh : nat) :
  from_source (constructed cls cfg fresh).
Proof.
  intros n tool. unfold constructed, class_tools; simpl.
  destruct cls.
  - destruct (decide (n = "regiter_custom_greeting")) as [->|N1].
    { rewrite lookup_insert_eq. intros [= <-]. simpl. tauto. }
    rewrite lookup_insert_ne by congruence.
    destruct (decide (n = "greet")) as [->|N2].
    { rewrite lookup_insert_eq. intros [= <-]. simpl. tauto. }
    rewrite lookup_insert_ne by congruence. rewrite lookup_empty. discriminate.
  - destruct (decide (n = "advanced_math")) as [->|N1].
    { rewrite lookup_insert_eq. intros [= <-]. simpl. tauto. }
    rewrite lookup_insert_ne by congruence.
    destruct (decide (n = "calculate")) as [->|N2].
    { rewrite lookup_insert_eq. intros [= <-]. simpl. tauto. }
    rewrite lookup_insert_ne by congruence. rewrite lookup_empty. discriminate.
Qed.

Lemma invoke_from_source (cb : ToolCallback) (args : Args cb)
    (this : BaseMCPServer) :
  from_source this -> from_source (snd (invoke cb args this)).
Proof.
  intros F. destruct cb; simpl; try exact F.
  unfold registerCustomGreeting, bind, registerToolHelper, registerTool.
  destruct (_registeredTools this !! "custom_greet") eqn:E; simpl; [exact F|].
  intros n tool. simpl.
  destruct (decide (n = "custom_greet")) as [->|N].
  - rewrite lookup_insert_eq. intros [= <-]. simpl. tauto.
  - rewrite lookup_insert_ne by congruence. apply F.
Qed.

Lemma serve_from_source (r : Request) (this : BaseMCPServer) :
  from_source this -> from_source (serve r this).
Proof.
  intros F. destruct r; simpl; try exact F.
  - unfold callTool, runTool. destruct (_ !! _) as [tool|]; [|exact F].
    destruct (inputSchema _ _) as [validated|issues]; [|exact F].
    pose proof (invoke_from_source (callback tool) validated this F) as G.
    destruct (invoke _ _ this) as [[r|e] this']; exact G.
  - unfold connect, McpServer_connect.
    destruct (getTransporter this); exact F.
  - unfold connect, McpServer_connect.
    destruct (getTransporter this); exact F.
Qed.

Lemma serve_all_from_source (rs : list Request) (this : BaseMCPServer) :
  from_source this -> from_source (serve_all rs this).
Proof.
  unfold serve_all. revert this.
  induction rs as [|r rs IH]; intros this F; simpl; [exact F|].
  apply IH, serve_from_source, F.
Qed.

(** X8. On a server that was constructed and has served any requests, a
    call of a tool that fails has no effect on the server.  It fails in four
    ways only: the name is not registered, the input does not pass the input
    schema of the tool, the handler is [registerCustomGreeting] and
    "custom_greet" is already registered, or the handler is [calculate] or
    [advancedMath] and its structured payload does not pass the output schema
    of the tool. *)
Theorem X8_failed_call_has_no_effect (cls : ServerClass) (params : JSObject)
    (fresh : nat) (this0 : BaseMCPServer) (requests : list Request)
    (name : string) (args : JSObject) (this' : BaseMCPServer) (e : Exception) :
  new cls params fresh = Return this0 ->
  tools_call name args (serve_all requests this0) = (Throw e, this') ->
  this' = serve_all requests this0
  /\ ((e = ToolNotFoundError name
       /\ _registeredTools (serve_all requests this0) !! name = None)
      \/ (exists tool issues,
            _registeredTools (serve_all requests this0) !! name = Some tool
            /\ inputSchema (tool_config tool) args = Invalid issues
            /\ e = ZodError issues)
      \/ (exists tool,
            _registeredTools (serve_all requests this0) !! name = Some tool
            /\ callback tool = this_registerCustomGreeting
            /\ is_Some (_registeredTools (serve_all requests this0) !! "custom_greet")
            /\ e = HandlerError (DuplicateNameError "custom_greet"))
      \/ (exists tool issues,
            _registeredTools (serve_all requests this0) !! name = Some tool
            /\ (callback tool = this_calculate \/ callback tool = this_advancedMath)
            /\ e = InvalidStructuredContent name issues)).
Proof.
  intros H. destruct (new_Return_constructed _ _ _ _ H) as (cfg & _ & ->).
  pose proof (serve_all_from_source requests _
                (constructed_from_source cls cfg fresh)) as F.
  generalize dependent (serve_all requests (constructed cls cfg fresh)).
  intros this F. unfold tools_call.
  destruct (_registeredTools this !! name) as [tool|] eqn:L;
    [|intros [= <- <-]; auto].
  specialize (F name tool L). simpl in F.
  unfold runTool.
  destruct (inputSchema (tool_config tool) args) as [validated|issues] eqn:I;
    [|intros [= <- <-]; split; [reflexivity|]; right; left; eauto].
  destruct F as [<-|[<-|[<-|[<-|[<-|[]]]]]]; simpl in *.
  - discriminate.
  - unfold registerCustomGreeting, bind, registerToolHelper, registerTool.
    destruct (_registeredTools this !! "custom_greet") eqn:C; simpl;
      [|discriminate].
    intros [= <- <-]. split; [reflexivity|]. right. right. left.
    eexists. split; [reflexivity|]. simpl. eauto.
  - discriminate.
  - unfold ret.
    destruct (validateStructuredContent name _ (calculate validated))
      as [r|e'] eqn:V; intros [= <- <-].
    split; [reflexivity|]. right. right. right.
    unfold validateStructuredContent in V.
    destruct (structuredContent _); [|discriminate].
    destruct (outputSchema _ _); [discriminate|]. injection V as <-.
    eexists. eexists. split; [reflexivity|]. simpl. eauto.
  - unfold ret.
    destruct (validateStructuredContent name _ (advancedMath validated))
      as [r|e'] eqn:V; intros [= <- <-].
    split; [reflexivity|]. right. right. right.
    unfold validateStructuredContent in V.
    destruct (structuredContent _); [|discriminate].
    destruct (outputSchema _ _); [discriminate|]. injection V as <-.
    eexists. eexists. split; [reflexivity|]. simpl. eauto.
Qed.

End MoreRequests.

(** ** The greetings tools *)

Section MoreGreetings.

Context {runtime : Builtins}.

Lemma GreetingsMCP_lookup (cfg : BaseMCPConfig) (fresh : nat) :
  _registeredTools (constructed GreetingsMCP cfg fresh) !! "greet"
  = Some {| callback := this_greet; tool_config := greet_config |}
  /\ _registeredTools (constructed GreetingsMCP cfg fresh) !! "regiter_custom_greeting"
     = Some {| callback := this_registerCustomGreeting;
               tool_config := register_custom_greeting_config |}
  /\ _registeredTools (constructed GreetingsMCP cfg fresh) !! "custom_greet" = None.
Proof.
  simpl. split; [|split].
  - rewrite lookup_insert_ne by discriminate. apply lookup_insert_eq.
  - apply lookup_insert_eq.
  - rewrite !lookup_insert_ne by discriminate. apply lookup_empty.
Qed.

(** X9. The tool "greet" of a greetings server runs its handler only on an
    input whose [name] is a string of 2 to 100 characters: a call with any
    other input (no name, a name that is not a string, a shorter or a longer
    one) fails with a [ZodError] and leaves the server unchanged. *)
Theorem X9_greet_rejects_names_out_of_bounds (params : JSObject) (fresh : nat)
    (this : BaseMCPServer) (args : JSObject) :
  new GreetingsMCP params fresh = Return this ->
  ~ (exists s, prop args "name" = JSString s /\ 2 <= String.length s <= 100) ->
  exists issues, callTool "greet" args this = (Throw (ZodError issues), this).
Proof.
  intros H B. destruct (new_Return_constructed _ _ _ _ H) as (cfg & _ & ->).
  destruct (GreetingsMCP_lookup cfg fresh) as (L & _).
  rewrite (callTool_registered _ _ _ _ L).
  unfold runTool. cbn [tool_config callback Args inputSchema greet_config].
  pose proof (string_field "name" 2 100 (prop args "name")) as S.
  destruct (at_key "name" _) as [s|issues].
  - exfalso. apply B. exists s. exact S.
  - simpl. eauto.
Qed.

(** X10. On a freshly constructed greetings server the tool "custom_greet"
    does not exist.  The first call of "regiter_custom_greeting" creates it;
    from then on "custom_greet" answers
    "Hello, <name>! <message>" for any two strings, the empty ones included,
    and every further call of "regiter_custom_greeting" fails with a
    [HandlerError] that carries the [DuplicateNameError] and changes
    nothing. *)
Theorem X10_custom_greeting_lifecycle (params : JSObject) (fresh : nat)
    (this : BaseMCPServer) (args : JSObject) :
  new GreetingsMCP params fresh = Return this ->
  callTool "custom_greet" args this
  = (Throw (ToolNotFoundError "custom_greet"), this)
  /\ exists this',
       callTool "regiter_custom_greeting" args this
       = (Return custom_greeting_registered, this')
       /\ callTool "regiter_custom_greeting" args this'
          = (Throw (HandlerError (DuplicateNameError "custom_greet")), this')
       /\ forall who message,
            callTool "custom_greet"
              [("name", JSString who); ("message", JSString message)] this'
            = (Return
                 {| content :=
                      [ {| type := "text";
                           text := "Hello, " +:+ who +:+ "! " +:+ message |} ];
                    structuredContent :=
                      Some [("text",
                             JSString ("Hello, " +:+ who +:+ "! " +:+ message))] |},
               this').
Proof.
  intros H. destruct (new_Return_constructed _ _ _ _ H) as (cfg & _ & ->).
  destruct (GreetingsMCP_lookup cfg fresh) as (_ & L & F).
  split.
  { unfold callTool. rewrite F. reflexivity. }
  set (this := constructed GreetingsMCP cfg fresh) in *.
  set (this' := set_registeredTools
                  (insert "custom_greet"
                     {| callback := this_customGreet;
                        tool_config := custom_greet_config |}) this).
  assert (Lc : _registeredTools this' !! "custom_greet"
               = Some {| callback := this_customGreet;
                         tool_config := custom_greet_config |})
    by apply lookup_insert_eq.
  assert (L' : _registeredTools this' !! "regiter_custom_greeting"
               = Some {| callback := this_registerCustomGreeting;
                         tool_config := register_custom_greeting_config |}).
  { unfold this'; simpl. rewrite lookup_insert_ne by discriminate. exact L. }
  exists this'. split; [|split].
  - rewrite (callTool_registered _ _ _ _ L). unfold runTool; simpl.
    unfold registerCustomGreeting, bind, registerToolHelper.
    rewrite (registerTool_fresh _ _ _ _ F). reflexivity.
  - rewrite (callTool_registered _ _ _ _ L'). unfold runTool; simpl.
    unfold registerCustomGreeting, bind, registerToolHelper.
    rewrite registerTool_taken by (rewrite Lc; eauto). reflexivity.
  - intros who message. rewrite (callTool_registered _ _ _ _ Lc). reflexivity.
Qed.

End MoreGreetings.

(** ** The calculator tools *)

Section MoreCalculator.

Context {runtime : Builtins}.

Lemma CalculatorMCP_lookup (cfg : BaseMCPConfig) (fresh : nat) :
  _registeredTools (constructed CalculatorMCP cfg fresh) !! "calculate"
  = Some {| callback := this_calculate; tool_config := calculate_config |}
  /\ _registeredTools (constructed CalculatorMCP cfg fresh) !! "advanced_math"
     = Some {| callback := this_advancedMath; tool_config := advanced_math_config |}.
Proof.
  simpl. split.
  - rewrite lookup_insert_ne by discriminate. apply lookup_insert_eq.
  - apply lookup_insert_eq.
Qed.

Lemma number_field (k : string) (v : JSValue) (n : float) :
  at_key k (z.number v) = Valid n ->
  v = JSNumber n /\ (n =? n)%float = true.
Proof.
  unfold z.number. destruct v as [| | |x| | | |]; simpl; try discriminate.
  destruct (x =? x)%float eqn:E; simpl; [|discriminate].
  intros [= <-]. auto.
Qed.

Lemma operation_field (v : JSValue) (op : string) :
  at_key "operation"
    (z.enum [("add", "add"); ("subtract", "subtract");
             ("multiply", "multiply"); ("divide", "divide")] v) = Valid op ->
  v = JSString op /\ In op ["add"; "subtract"; "multiply"; "divide"].
Proof.
  unfold z.enum, find, fst, snd.
  destruct v as [| | | |s| | |]; try (simpl; discriminate).
  destruct (String.eqb_spec "add" s) as [<-|_];
    [intros [= <-]; simpl; tauto|].
  destruct (String.eqb_spec "subtract" s) as [<-|_];
    [intros [= <-]; simpl; tauto|].
  destruct (String.eqb_spec "multiply" s) as [<-|_];
    [intros [= <-]; simpl; tauto|].
  destruct (String.eqb_spec "divide" s) as [<-|_];
    [intros [= <-]; simpl; tauto|].
  simpl. discriminate.
Qed.

(** What the input schema of "calculate" lets through. *)
Lemma calculate_inputSchema_Valid (o : JSObject) (args : CalculateArgs) :
  inputSchema calculate_config o = Valid args ->
  In (operation args) ["add"; "subtract"; "multiply"; "divide"]
  /\ prop o "operation" = JSString (operation args)
  /\ prop o "a" = JSNumber (a args) /\ (a args =? a args)%float = true
  /\ prop o "b" = JSNumber (b args) /\ (b args =? b args)%float = true.
Proof.
  cbn [inputSchema calculate_config].
  pose proof (operation_field (prop o "operation")) as Hop.
  pose proof (number_field "a" (prop o "a")) as Ha.
  pose proof (number_field "b" (prop o "b")) as Hb.
  destruct (at_key "operation" _) as [op|], (at_key "a" _) as [x|],
    (at_key "b" _) as [y|]; simpl; try discriminate.
  intros [= <-]. simpl.
  destruct (Hop op eq_refl), (Ha x eq_refl), (Hb y eq_refl). tauto.
Qed.

(** X11. On every input that the input schema of "calculate" accepts, the
    operation is one of add, subtract, multiply and divide and the handler
    returns the division-by-zero payload when the operation is divide and
    [b] is zero, and otherwise a payload whose result is the sum, difference,
    product or quotient of [a] and [b]: the "Unknown operation" branch is
    taken only by an operation that the schema does not let through. *)
Theorem X11_calculate_on_validated_input (o : JSObject) (args : CalculateArgs) :
  inputSchema calculate_config o = Valid args ->
  In (operation args) ["add"; "subtract"; "multiply"; "divide"]
  /\ (if String.eqb (operation args) "divide" && (b args =? 0)%float
      then calculate args = division_by_zero
      else exists expression,
             calculate args
             = calculate_ok
                 (arithmetic (operation args) (a args) (b args)) expression)
  /\ forall args',
       ~ In (operation args') ["add"; "subtract"; "multiply"; "divide"] ->
       calculate args' = calculate_error "Unknown operation".
Proof.
  intros H. destruct (calculate_inputSchema_Valid o args H) as (Hop & _).
  split; [exact Hop|]. split.
  - destruct args as [op x y]; simpl in *. unfold calculate, arithmetic; simpl.
    destruct Hop as [<-|[<-|[<-|[<-|[]]]]]; simpl;
      try (eexists; reflexivity).
    destruct (y =? 0)%float; [reflexivity | eexists; reflexivity].
  - intros [op x y] N. simpl in N. unfold calculate; simpl.
    destruct (String.eqb_spec op "add") as [->|_]; [tauto|].
    destruct (String.eqb_spec op "subtract") as [->|_]; [tauto|].
    destruct (String.eqb_spec op "multiply") as [->|_]; [tauto|].
    destruct (String.eqb_spec op "divide") as [->|_]; [tauto|].
    reflexivity.
Qed.


(** X14. The input schema of "advanced_math" accepts any string as
    operation.  For an operation other than sqrt, pow, log, sin, cos and tan
    the handler does not throw: it returns the payload whose error is
    "Unknown operation".  That payload has no [result], which the output
    schema of the tool requires, so the call of the tool on a calculator
    server fails at the check of the structured content, the server
    unchanged. *)
Theorem X14_advanced_math_unknown_operation (op : string) (v : float) :
  ~ In op ["sqrt"; "pow"; "log"; "sin"; "cos"; "tan"] ->
  (forall e,
      advancedMath {| math_operation := op; value := v; exponent := e |}
      = calculate_error "Unknown operation")
  /\ inputSchema advanced_math_config
       [("operation", JSString op); ("value", JSNumber v)]
     = (if (v =? v)%float
        then Valid {| math_operation := op; value := v; exponent := None |}
        else Invalid [{| code := invalid_type; path := ["value"] |}])
  /\ (forall params fresh this,
        new CalculatorMCP params fresh = Return this ->
        (v =? v)%float = true ->
        tools_call "advanced_math"
          [("operation", JSString op); ("value", JSNumber v)] this
        = (Throw (InvalidStructuredContent "advanced_math"
                    [{| code := invalid_type; path := ["result"] |}]),
           this)).
Proof.
  intros N.
  assert (A : forall e,
             advancedMath {| math_operation := op; value := v; exponent := e |}
             = calculate_error "Unknown operation").
  { intros e. simpl in N. unfold advancedMath; simpl.
    destruct (String.eqb_spec op "sqrt") as [->|_]; [tauto|].
    destruct (String.eqb_spec op "pow") as [->|_]; [tauto|].
    destruct (String.eqb_spec op "log") as [->|_]; [tauto|].
    destruct (String.eqb_spec op "sin") as [->|_]; [tauto|].
    destruct (String.eqb_spec op "cos") as [->|_]; [tauto|].
    destruct (String.eqb_spec op "tan") as [->|_]; [tauto|].
    reflexivity. }
  split; [exact A|]. split.
  { simpl. unfold z.number. destruct (v =? v)%float; reflexivity. }
  intros params fresh this H Hv.
  destruct (new_Return_constructed _ _ _ _ H) as (cfg & _ & ->).
  destruct (CalculatorMCP_lookup cfg fresh) as (_ & L).
  unfold tools_call. rewrite L.
  unfold runTool. cbn [tool_config callback Args].
  simpl. unfold z.number. rewrite Hv. simpl. unfold ret. rewrite A. reflexivity.
Qed.

End MoreCalculator.

(** ** Results and the declared output schemas *)

Section OutputSchemas.

Context {runtime : Builtins}.

(** X12. The structured payloads of [greet], [customGreet] and
    [registerCustomGreeting] always satisfy the output schema that their tool
    declares.  The error payloads of the calculator ("Division by zero",
    "Unknown operation") never satisfy the output schema of "calculate" or of
    "advanced_math", which require a [result]; a successful payload of
    [calculate] satisfies it when the result is finite and does not when the
    result is NaN. *)
Theorem X12_payloads_and_output_schemas :
  (forall this args,
      outputSchema greet_config (payload (greet this args))
      = Valid (payload (greet this args)))
  /\ (forall args,
         outputSchema custom_greet_config (payload (customGreet args))
         = Valid (payload (customGreet args)))
  /\ outputSchema register_custom_greeting_config (payload custom_greeting_registered)
     = Valid (payload custom_greeting_registered)
  /\ (forall message,
         outputSchema calculate_config (payload (calculate_error message))
         = Invalid [{| code := invalid_type; path := ["result"] |};
                    {| code := invalid_type; path := ["expression"] |}])
  /\ (forall message,
         outputSchema advanced_math_config (payload (calculate_error message))
         = Invalid [{| code := invalid_type; path := ["result"] |}])
  /\ (forall result expression,
         Number_isFinite result = true ->
         outputSchema calculate_config (payload (calculate_ok result expression))
         = Valid (payload (calculate_ok result expression)))
  /\ (forall result expression,
         (result =? result)%float = false ->
         outputSchema calculate_config (payload (calculate_ok result expression))
         = Invalid [{| code := invalid_type; path := ["result"] |}]).
Proof.
  repeat split; try reflexivity.
  - intros result expression H. apply isFinite_not_nan in H.
    simpl. unfold z.number. rewrite H. reflexivity.
  - intros result expression H. simpl. unfold z.number. rewrite H. reflexivity.
Qed.

End OutputSchemas.

(** ** The weather tool *)

Section MoreWeather.

Context {runtime : Builtins}.

Lemma units_field (v : JSValue) (u : Units) :
  at_key "units"
    (z.default (JSString "celsius")
       (z.enum [("celsius", celsius); ("fahrenheit", fahrenheit)]) v) = Valid u ->
  (v = JSUndefined /\ u = celsius)
  \/ (v = JSString "celsius" /\ u = celsius)
  \/ (v = JSString "fahrenheit" /\ u = fahrenheit).
Proof.
  unfold z.default, z.enum, find, fst, snd.
  destruct v as [| | | |s| | |]; try (simpl; discriminate).
  - simpl. intros [= <-]. auto.
  - destruct (String.eqb_spec "celsius" s) as [<-|_];
      [intros [= <-]; auto|].
    destruct (String.eqb_spec "fahrenheit" s) as [<-|_];
      [intros [= <-]; auto|].
    simpl. discriminate.
Qed.

(** X18. On every input that the input schema of "get_weather" accepts, the
    location has 1 to 100 characters and the units are celsius, also when
    they are omitted, or fahrenheit; the reported temperature depends on the
    units only (22 for celsius, 72 for fahrenheit), the text names the
    location, and the structured payload satisfies the declared output
    schema. *)
Theorem X18_getWeather_on_validated_input (o : JSObject) (args : GetWeatherArgs) :
  inputSchema get_weather_config o = Valid args ->
  prop o "location" = JSString (location args)
  /\ 1 <= String.length (location args) <= 100
  /\ ((prop o "units" = JSUndefined /\ units args = celsius)
      \/ (prop o "units" = JSString "celsius" /\ units args = celsius)
      \/ (prop o "units" = JSString "fahrenheit" /\ units args = fahrenheit))
  /\ prop (payload (getWeather args)) "temperature"
     = JSNumber (match units args with celsius => 22 | fahrenheit => 72 end)
  /\ content (getWeather args)
     = [ {| type := "text";
            text := "Current weather in " +:+ location args +:+ ": "
                      +:+ Number_toString
                            (match units args with celsius => 22 | fahrenheit => 72 end)
                      +:+ degree_sign +:+ " "
                      +:+ match units args with celsius => "C" | fahrenheit => "F" end
                      +:+ ", Partly cloudy" |} ]
  /\ outputSchema get_weather_config (payload (getWeather args))
     = Valid (payload (getWeather args)).
Proof.
  cbn [inputSchema get_weather_config].
  pose proof (string_field "location" 1 100 (prop o "location")) as Hl.
  pose proof (units_field (prop o "units")) as Hu.
  destruct (at_key "location" _) as [l|], (at_key "units" _) as [u|];
    simpl; try discriminate.
  intros [= <-]. simpl. destruct Hl as [El Bl].
  split; [exact El|]. split; [exact Bl|]. split; [exact (Hu u eq_refl)|].
  destruct u; repeat split.
Qed.

End MoreWeather.

(** ** The HTTP route *)

(** X15. The route [POST /greet] hands a request to [handleRequest] of the
    server's HTTP transport exactly when the server was constructed in mode
    "streamable-http", and then to the handle chosen at construction; for a
    server constructed in mode "stdio" it answers every request with status
    500 and the error "HTTP transporter is not available".  This holds after
    any requests the server has served. *)
Theorem X15_post_greet_by_mode {runtime : Builtins} (cls : ServerClass)
    (params : JSObject) (fresh : nat) (this : BaseMCPServer)
    (requests : list Request) :
  new cls params fresh = Return this ->
  match transportMode this with
  | streamable_http =>
      exists httpTransporter,
        getHTTPTransporter this = Some httpTransporter
        /\ post_greet (serve_all requests this) = HandleRequest httpTransporter
  | stdio =>
      post_greet (serve_all requests this)
      = Responded {| status := 500;
                     json := [("error", JSString "HTTP transporter is not available")] |}
  end.
Proof.
  intros H. destruct (new_Return_constructed _ _ _ _ H) as (cfg & _ & ->).
  destruct (serve_all_same_state requests (constructed cls cfg fresh))
    as (_ & _ & _ & _ & _ & Sh & _).
  unfold post_greet, getHTTPTransporter. rewrite Sh.
  unfold constructed, selected_http; simpl.
  destruct (cfg_transportMode cfg); [eexists; split; reflexivity | reflexivity].
Qed.

(** ** Reading the notice *)

Section MoreFiles.

Context {runtime : Builtins} {fs : FileSystem}.

(** X16. [extractPdfTextFromFile] guards the read by the size that [stat]
    reports: a regular file larger than [maxBytes] (26214400 bytes, 25 MiB,
    when the option is absent) is refused with "PDF too large: <size> bytes",
    a path that is not a regular file with "Not a file: <path>", and a
    rejection of [stat] is passed on.  A regular file of at most [maxBytes],
    the limit included, is read and parsed, and the outcome is that of the
    read and the parser. *)
Theorem X16_extractPdfTextFromFile_size_guard (filePath : string)
    (opts : TFileExtractOpts) :
  (forall e, stat filePath = Throw e ->
             extractPdfTextFromFile filePath opts = Throw e)
  /\ (forall info,
         stat filePath = Return info -> isFile info = false ->
         extractPdfTextFromFile filePath opts
         = Throw (Error ("Not a file: " +:+ filePath)))
  /\ (forall info,
         stat filePath = Return info -> isFile info = true ->
         (default 26214400 (maxBytes opts) <? size info)%float = true ->
         extractPdfTextFromFile filePath opts
         = Throw (Error ("PDF too large: " +:+ Number_toString (size info)
                           +:+ " bytes")))
  /\ (forall info,
         stat filePath = Return info -> isFile info = true ->
         (size info <=? default 26214400 (maxBytes opts))%float = true ->
         extractPdfTextFromFile filePath opts
         = match readFile filePath with
           | Throw e => Throw e
           | Return buf => PdfParse buf (default [] (pdfParse opts))
           end).
Proof.
  unfold extractPdfTextFromFile.
  change (25 * 1024 * 1024)%float with 26214400%float.
  repeat split.
  - intros e ->. reflexivity.
  - intros info -> ->. reflexivity.
  - intros info -> -> ->. reflexivity.
  - intros info -> -> H. apply leb_not_ltb in H. rewrite H. reflexivity.
Qed.

(** X17. [getNoticeContent] passes no options, so the limit is 26214400
    bytes: when the notice is a regular file of at most that size which is
    read and parses to a text, the resource has exactly one entry, with that
    text, the uri "notice.txt" and the MIME type "text/plain"; when the
    notice is larger, reading the resource fails with "PDF too large". *)
Theorem X17_getNoticeContent (info : Stats) :
  stat "/Users/aman/Developer/SynergyBoat/content-gen/src/assets/pdf/notice.pdf"
  = Return info ->
  isFile info = true ->
  ((size info <=? 26214400)%float = true ->
   forall buf pdfText,
     readFile "/Users/aman/Developer/SynergyBoat/content-gen/src/assets/pdf/notice.pdf"
     = Return buf ->
     PdfParse buf [] = Return pdfText ->
     getNoticeContent
     = Return [ {| contents_text := pdfText;
                   contents_uri := "notice.txt";
                   mimeType := "text/plain" |} ])
  /\ ((26214400 <? size info)%float = true ->
      getNoticeContent
      = Throw (Error ("PDF too large: " +:+ Number_toString (size info)
                        +:+ " bytes"))).
Proof.
  intros Hs Hf. unfold getNoticeContent, extractPdfTextFromFile.
  change (25 * 1024 * 1024)%float with 26214400%float.
  rewrite Hs, Hf. simpl. split.
  - intros H buf pdfText -> ->. apply leb_not_ltb in H. rewrite H. reflexivity.
  - intros ->. reflexivity.
Qed.

End MoreFiles.

(** ** The further properties at concrete inputs *)

(** X2 at a configuration that brings its own HTTP transport. *)
Lemma X2_witness :
  exists this,
    new GreetingsMCP own_transport_params 0 = Return this
    /\ getTransporter this = Return (HttpTransport own_http_transport)
    /\ getStdioTransporter this = None.
Proof.
  destruct (X2_matching_handle_adopted GreetingsMCP own_transport_params 0)
    as (this & E & _ & M).
  - exists "Greetings MCP". split; [reflexivity | simpl; lia].
  - exists "1.0.0". split; [reflexivity | simpl; lia].
  - left. reflexivity.
  - left. reflexivity.
  - left. exists own_http_transport. split; reflexivity.
  - exists this. simpl in M. tauto.
Defined.

(** X3 at the stdio server of std-app.ts, after three requests. *)
Lemma X3_witness :
  new GreetingsMCP stdio_params 4 = Return (constructed GreetingsMCP stdio_config 4)
  /\ exists t,
       getStdioTransporter (constructed GreetingsMCP stdio_config 4) = Some t
       /\ getTransporter
            (@serve_all example_runtime
               [Connect; CallTool "regiter_custom_greeting" []; Start]
               (constructed GreetingsMCP stdio_config 4))
          = Return (StdioTransport t).
Proof.
  assert (H : new GreetingsMCP stdio_params 4
              = Return (constructed GreetingsMCP stdio_config 4))
    by (vm_compute; reflexivity).
  split; [exact H|].
  exact (@X3_getTransporter_never_throws example_runtime _ _ _ _
           [Connect; CallTool "regiter_custom_greeting" []; Start] H).
Defined.

(** X4 at the stdio server of std-app.ts. *)
Lemma X4_witness :
  exists transporter this',
    connect (constructed GreetingsMCP stdio_config 0) = (Return tt, this')
    /\ transporter = StdioTransport {| stdio_ref := 0 |}
    /\ _transport this' = Some transporter.
Proof.
  destruct (X4_connect_binds_selected_transport GreetingsMCP stdio_params 0
              (constructed GreetingsMCP stdio_config 0))
    as (t & this' & G & E & T & _); [vm_compute; reflexivity|].
  exists t, this'. split; [exact E|]. split; [|exact T].
  injection G as <-. reflexivity.
Defined.

(** X5 at the HTTP server of app.ts. *)
Lemma X5_witness :
  fst (@start example_runtime (constructed GreetingsMCP
         {| cfg_name := "Greetings MCP"; cfg_version := "1.0.0";
            cfg_host := "localhost"; cfg_port := 3000;
            cfg_transportMode := streamable_http; cfg_transport := None |} 0))
  = ["Starting Greetings MCP v1.0.0 on http://localhost:3000"].
Proof.
  refine (proj1 (@X5_start_logs_once_then_connects example_runtime
                   GreetingsMCP http_params 0 _ _)).
  vm_compute; reflexivity.
Defined.

(** X6 at the stdio server of std-app.ts, after a start and a tool call. *)
Lemma X6_witness :
  getMetadata
    (@serve_all example_runtime [Start; CallTool "greet" [("name", JSString "Ada")]]
       (constructed GreetingsMCP stdio_config 0))
  = {| meta_name := "Greetings MCP"; meta_version := "1.0.0";
       meta_transportMode := stdio; meta_host := "localhost"; meta_port := 3000 |}.
Proof.
  apply (@X6_getMetadata_is_stable example_runtime GreetingsMCP stdio_params 0
           stdio_config).
  - reflexivity.
  - vm_compute; reflexivity.
Defined.

(** X8 at a division by zero on a calculator server that has been started. *)
Lemma X8_witness :
  new CalculatorMCP stdio_params 0 = Return (constructed CalculatorMCP stdio_config 0)
  /\ @tools_call example_runtime "calculate"
       [("operation", JSString "divide"); ("a", JSNumber 10); ("b", JSNumber 0)]
       (@serve_all example_runtime [Start] (constructed CalculatorMCP stdio_config 0))
     = (Throw (InvalidStructuredContent "calculate"
                 [{| code := invalid_type; path := ["result"] |};
                  {| code := invalid_type; path := ["expression"] |}]),
        @serve_all example_runtime [Start] (constructed CalculatorMCP stdio_config 0))
  /\ exists tool,
       _registeredTools
         (@serve_all example_runtime [Start] (constructed CalculatorMCP stdio_config 0))
         !! "calculate" = Some tool
       /\ (callback tool = this_calculate \/ callback tool = this_advancedMath).
Proof.
  assert (H1 : new CalculatorMCP stdio_params 0
               = Return (constructed CalculatorMCP stdio_config 0))
    by (vm_compute; reflexivity).
  assert (H2 : @tools_call example_runtime "calculate"
                 [("operation", JSString "divide"); ("a", JSNumber 10);
                  ("b", JSNumber 0)]
                 (@serve_all example_runtime [Start]
                    (constructed CalculatorMCP stdio_config 0))
               = (Throw (InvalidStructuredContent "calculate"
                           [{| code := invalid_type; path := ["result"] |};
                            {| code := invalid_type; path := ["expression"] |}]),
                  @serve_all example_runtime [Start]
                    (constructed CalculatorMCP stdio_config 0)))
    by (vm_compute; reflexivity).
  split; [exact H1|]. split; [exact H2|].
  destruct (@X8_failed_call_has_no_effect example_runtime _ _ _ _ _ _ _ _ _ H1 H2)
    as (_ & [(E & _)|[(tool & issues & _ & _ & E)
                     |[(tool & _ & _ & _ & E)|(tool & issues & L & C & _)]]]).
  - discriminate E.
  - discriminate E.
  - discriminate E.
  - exists tool. split; assumption.
Defined.

(** X9 at the one-character name "A" and at an input without name. *)
Lemma X9_witness :
  (exists issues,
     @callTool example_runtime "greet" [("name", JSString "A")]
       (constructed GreetingsMCP stdio_config 0)
     = (Throw (ZodError issues), constructed GreetingsMCP stdio_config 0))
  /\ (exists issues,
        @callTool example_runtime "greet" []
          (constructed GreetingsMCP stdio_config 0)
        = (Throw (ZodError issues), constructed GreetingsMCP stdio_config 0)).
Proof.
  split.
  - apply (@X9_greet_rejects_names_out_of_bounds example_runtime stdio_params 0).
    + vm_compute; reflexivity.
    + intros (s & E & B). injection E as <-. simpl in B. lia.
  - apply (@X9_greet_rejects_names_out_of_bounds example_runtime stdio_params 0).
    + vm_compute; reflexivity.
    + intros (s & E & B). discriminate E.
Defined.

(** X10 at the stdio server of std-app.ts, with an empty message. *)
Lemma X10_witness :
  exists this',
    @callTool example_runtime "regiter_custom_greeting" []
      (constructed GreetingsMCP stdio_config 0)
    = (Return custom_greeting_registered, this')
    /\ fst (@callTool example_runtime "custom_greet"
              [("name", JSString "Ada"); ("message", JSString "")] this')
       = Return
           {| content := [ {| type := "text"; text := "Hello, Ada! " |} ];
              structuredContent := Some [("text", JSString "Hello, Ada! ")] |}.
Proof.
  destruct (@X10_custom_greeting_lifecycle example_runtime stdio_params 0
              (constructed GreetingsMCP stdio_config 0) [])
    as (_ & this' & E & _ & C); [vm_compute; reflexivity|].
  exists this'. split; [exact E|]. rewrite (C "Ada" ""). reflexivity.
Defined.

(** X11 at the division of 10 by 0 and at the product of 6 and 7. *)
Lemma X11_witness :
  @calculate example_runtime {| operation := "divide"; a := 10; b := 0 |}
  = division_by_zero
  /\ exists expression,
       @calculate example_runtime {| operation := "multiply"; a := 6; b := 7 |}
       = calculate_ok 42 expression.
Proof.
  split.
  - exact (proj1 (proj2
      (@X11_calculate_on_validated_input example_runtime
         [("operation", JSString "divide"); ("a", JSNumber 10); ("b", JSNumber 0)]
         {| operation := "divide"; a := 10; b := 0 |} eq_refl))).
  - exact (proj1 (proj2
      (@X11_calculate_on_validated_input example_runtime
         [("operation", JSString "multiply"); ("a", JSNumber 6); ("b", JSNumber 7)]
         {| operation := "multiply"; a := 6; b := 7 |} eq_refl))).
Defined.

(** X14 at the operation "cbrt". *)
Lemma X14_witness :
  @tools_call example_runtime "advanced_math"
    [("operation", JSString "cbrt"); ("value", JSNumber 27)]
    (constructed CalculatorMCP stdio_config 0)
  = (Throw (InvalidStructuredContent "advanced_math"
              [{| code := invalid_type; path := ["result"] |}]),
     constructed CalculatorMCP stdio_config 0).
Proof.
  refine (proj2 (proj2
            (@X14_advanced_math_unknown_operation example_runtime "cbrt" 27 _))
            stdio_params 0 _ _ _).
  - simpl. intros [H|[H|[H|[H|[H|[H|[]]]]]]]; discriminate H.
  - vm_compute; reflexivity.
  - reflexivity.
Defined.

(** X15 at the HTTP server of app.ts and at the stdio server of std-app.ts. *)
Lemma X15_witness :
  (exists this,
     new GreetingsMCP http_params 3 = Return this
     /\ post_greet this
        = HandleRequest {| http_ref := 3; sessionIdGenerator := None |})
  /\ post_greet (constructed GreetingsMCP stdio_config 3)
     = Responded {| status := 500;
                    json := [("error", JSString "HTTP transporter is not available")] |}.
Proof.
  split.
  - eexists. split; [vm_compute; reflexivity|].
    destruct (@X15_post_greet_by_mode example_runtime GreetingsMCP http_params 3
                _ [] ltac:(vm_compute; reflexivity)) as (t & G & E).
    injection G as <-. exact E.
  - exact (@X15_post_greet_by_mode example_runtime GreetingsMCP stdio_params 3
             _ [] ltac:(vm_compute; reflexivity)).
Defined.

(** X16 at the limit: a file of exactly 26214400 bytes is read, one of
    26214401 bytes is refused. *)
Lemma X16_witness :
  @extractPdfTextFromFile example_runtime (one_file 26214400 "Notice")
    "notice.pdf" {| maxBytes := None; pdfParse := None |}
  = Return "Notice"
  /\ @extractPdfTextFromFile example_runtime (one_file 26214401 "Notice")
       "notice.pdf" {| maxBytes := None; pdfParse := None |}
     = Throw (Error "PDF too large: 26214401 bytes").
Proof.
  split.
  - destruct (@X16_extractPdfTextFromFile_size_guard example_runtime
                (one_file 26214400 "Notice") "notice.pdf"
                {| maxBytes := None; pdfParse := None |}) as (_ & _ & _ & H).
    apply (H {| isFile := true; size := 26214400 |}); reflexivity.
  - destruct (@X16_extractPdfTextFromFile_size_guard example_runtime
                (one_file 26214401 "Notice") "notice.pdf"
                {| maxBytes := None; pdfParse := None |}) as (_ & _ & H & _).
    apply (H {| isFile := true; size := 26214401 |}); reflexivity.
Defined.

(** X17 at a notice of 1024 bytes. *)
Lemma X17_witness :
  @getNoticeContent example_runtime (one_file 1024 "International Yoga Day")
  = Return [ {| contents_text := "International Yoga Day";
                contents_uri := "notice.txt";
                mimeType := "text/plain" |} ].
Proof.
  refine (proj1 (@X17_getNoticeContent example_runtime
                   (one_file 1024 "International Yoga Day")
                   {| isFile := true; size := 1024 |} eq_refl eq_refl)
            eq_refl "%PDF" _ eq_refl eq_refl).
Defined.

(** X18 at a location without units. *)
Lemma X18_witness :
  prop (payload (@getWeather example_runtime
                   {| location := "Pune"; units := celsius |})) "temperature"
  = JSNumber 22
  /\ content (@getWeather example_runtime {| location := "Pune"; units := celsius |})
     = [ {| type := "text";
            text := "Current weather in Pune: 22" +:+ degree_sign
                      +:+ " C, Partly cloudy" |} ].
Proof.
  destruct (@X18_getWeather_on_validated_input example_runtime
              [("location", JSString "Pune")]
              {| location := "Pune"; units := celsius |} eq_refl)
    as (_ & _ & _ & T & C & _).
  split; [exact T | exact C].
Defined.
